(** * fluxlogic-vectors: the three "vector" services

    A shallow embedding of [vector1_app.py], [vector2_app.py] and
    [vector3_app.py]: the authorizer, the capability handlers
    ([extract_markdown], [run_skill], [generate_llm_txt]), the usage biller
    ([create_usage_charge]) and the listing publisher ([publish_listing]).

    Python values are embedded as the inductive [pyval]; the dictionaries
    the handlers return are association lists in insertion order; floats
    are IEEE 754 binary64 numbers computed with the executable
    specification of [SpecFloat]; a Python call that can raise returns an
    [outcome]. *)

From Stdlib Require Import ZArith List String Ascii Bool Lia.
From Stdlib Require Import Floats.SpecFloat.
From Equations Require Import Equations.
Import ListNotations.

Local Open Scope string_scope.
Local Open Scope Z_scope.

(** ** Python [str] operations

    A [str] is embedded as a [string]: the code points below 256. The
    tables [isspace] and [lower_char] are those of CPython on that range. *)
Module PyString.

Definition char_in (lo hi c : N) : bool := (N.leb lo c && N.leb c hi)%bool.

(** [str.isspace] on one code point: TAB..CR, FS..US, SPACE, NEL, NBSP. *)
Definition isspace (c : ascii) : bool :=
  let n := N_of_ascii c in
  (char_in 9 13 n || char_in 28 32 n || N.eqb n 133 || N.eqb n 160)%bool.

(** [str.lower] on one code point: A..Z and the Latin-1 capitals. *)
Definition lower_char (c : ascii) : ascii :=
  let n := N_of_ascii c in
  if (char_in 65 90 n || (char_in 192 222 n && negb (N.eqb n 215)))%bool
  then ascii_of_N (n + 32) else c.

Fixpoint lower (s : string) : string :=
  match s with
  | EmptyString => EmptyString
  | String c s' => String (lower_char c) (lower s')
  end.

(** [s.startswith(p)] *)
Fixpoint startswith (p s : string) : bool :=
  match p with
  | EmptyString => true
  | String a p' =>
      match s with
      | EmptyString => false
      | String b s' => (Ascii.eqb a b && startswith p' s')%bool
      end
  end.

(** [needle in hay] *)
Fixpoint contains (needle hay : string) : bool :=
  if startswith needle hay then true
  else match hay with
       | EmptyString => false
       | String _ hay' => contains needle hay'
       end.

(** [s[n:]] *)
Fixpoint drop (n : nat) (s : string) : string :=
  match n, s with
  | O, _ => s
  | S n', String _ s' => drop n' s'
  | S _, EmptyString => EmptyString
  end.

Definition is_empty (s : string) : bool :=
  match s with EmptyString => true | String _ _ => false end.

Fixpoint lstrip (s : string) : string :=
  match s with
  | EmptyString => EmptyString
  | String c s' => if isspace c then lstrip s' else s
  end.

Fixpoint rstrip (s : string) : string :=
  match s with
  | EmptyString => EmptyString
  | String c s' =>
      let r := rstrip s' in
      if (isspace c && is_empty r)%bool then EmptyString else String c r
  end.

(** [s.strip()] *)
Definition strip (s : string) : string := lstrip (rstrip s).

(** [s.split()]: the maximal runs of non-whitespace, in order. [cur] is the
    run being read. *)
Fixpoint split_from (cur s : string) : list string :=
  match s with
  | EmptyString => if is_empty cur then [] else [cur]
  | String c s' =>
      if isspace c
      then (if is_empty cur then split_from EmptyString s'
            else cur :: split_from EmptyString s')
      else split_from (cur ++ String c EmptyString) s'
  end.

Definition split (s : string) : list string := split_from EmptyString s.

End PyString.

(** ** Exceptions and outcomes *)

Inductive exn : Set :=
| OverflowError
| ValueError
| ProviderError (msg : string).

Inductive outcome (A : Type) : Type :=
| Returned (a : A)
| Raised (e : exn).
Arguments Returned {A} a.
Arguments Raised {A} e.

Definition bind {A B : Type} (m : outcome A) (k : A -> outcome B) : outcome B :=
  match m with
  | Returned a => k a
  | Raised e => Raised e
  end.

Notation "x <- m ;; k" := (bind m (fun x => k))
  (at level 61, m at next level, right associativity).

(** ** Python [float]: IEEE 754 binary64 *)
Module PyFloat.

Definition float := spec_float.

Definition prec : Z := 53.
Definition emax : Z := 1024.

(** [float(n)] for an [int]: correctly rounded (ties to even), and
    [OverflowError] ("int too large to convert to float") when the rounded
    value is not finite. *)
Definition of_int (n : Z) : outcome float :=
  match binary_normalize prec emax n 0 false with
  | S754_infinity _ => Raised OverflowError
  | f => Returned f
  end.

Definition mul (x y : float) : float := SFmul prec emax x y.

(** [n * y] and [x * n] with [n] an [int]: the [int] is converted first. *)
Definition int_mul (n : Z) (y : float) : outcome float :=
  x <- of_int n ;; Returned (mul x y).

Definition mul_int (x : float) (n : Z) : outcome float :=
  y <- of_int n ;; Returned (mul x y).

(** The double nearest to [n / d] ([0 <= n]), with sign [s]. Both operands
    are exact integers, so the quotient is rounded once. *)
Definition of_ratio (s : bool) (n : Z) (d : positive) : float :=
  match n with
  | Zpos p => SFdiv prec emax (S754_finite s p 0) (S754_finite false d 0)
  | _ => S754_zero s
  end.

(** A decimal literal [digits / 10^scale], as the parser reads it. *)
Definition of_decimal (digits : Z) (scale : nat) : float :=
  of_ratio false digits (Z.to_pos (10 ^ Z.of_nat scale)).

(** [n / d] rounded to the nearest integer, ties to even ([0 <= n], [0 < d]). *)
Definition div_half_even (n d : Z) : Z :=
  let q := n / d in
  let r := n mod d in
  match 2 * r ?= d with
  | Lt => q
  | Gt => q + 1
  | Eq => if Z.even q then q else q + 1
  end.

(** [m * 2^e * 10^k] rounded to the nearest integer, ties to even. *)
Definition scaled_digits (m : positive) (e : Z) (k : nat) : Z :=
  let scale := 10 ^ Z.of_nat k in
  match e with
  | Zneg p => div_half_even (Zpos m * scale) (2 ^ Zpos p)
  | _ => Zpos m * 2 ^ e * scale
  end.

(** [round(x, ndigits)] for [0 <= ndigits]: the exact value of [x] is
    rounded to [ndigits] decimals (ties to even), and the decimal is read
    back as the nearest double; [OverflowError] if that is not finite.
    Above 323 digits, and on infinities and NaN, [x] is returned. *)
Definition round (x : float) (ndigits : nat) : outcome float :=
  match x with
  | S754_finite s m e =>
      if (323 <? Z.of_nat ndigits) then Returned x
      else
        match of_ratio s (scaled_digits m e ndigits)
                         (Z.to_pos (10 ^ Z.of_nat ndigits)) with
        | S754_infinity _ => Raised OverflowError
        | f => Returned f
        end
  | _ => Returned x
  end.

(** [int(x)]: truncation toward zero; raises on infinities and NaN. *)
Definition to_int (x : float) : outcome Z :=
  match x with
  | S754_nan => Raised ValueError
  | S754_infinity _ => Raised OverflowError
  | S754_zero _ => Returned 0
  | S754_finite s m e =>
      let a := match e with
               | Zneg p => Zpos m / 2 ^ Zpos p
               | _ => Zpos m * 2 ^ e
               end in
      Returned (if s then - a else a)
  end.

End PyFloat.

(** ** Python values *)

#[warnings="-register-all"]
Inductive pyval : Type :=
| PyNone
| PyBool (b : bool)
| PyInt (n : Z)
| PyFloat (f : PyFloat.float)
| PyStr (s : string)
| PyList (l : list pyval)
| PyDict (d : list (string * pyval)).

(** [d[k] = v] on a dictionary: overwrite in place, or append. *)
Fixpoint dict_set (k : string) (v : pyval) (d : list (string * pyval))
  : list (string * pyval) :=
  match d with
  | [] => [(k, v)]
  | (k', v') :: d' =>
      if String.eqb k' k then (k', v) :: d' else (k', v') :: dict_set k v d'
  end.

Fixpoint dict_lookup (k : string) (d : list (string * pyval)) : option pyval :=
  match d with
  | [] => None
  | (k', v) :: d' => if String.eqb k' k then Some v else dict_lookup k d'
  end.

(** [d.get(k)] *)
Definition dict_get (k : string) (d : list (string * pyval)) : pyval :=
  match dict_lookup k d with
  | Some v => v
  | None => PyNone
  end.

(** [d.get(k, default)] *)
Definition dict_get_default (k : string) (default : pyval)
    (d : list (string * pyval)) : pyval :=
  match dict_lookup k d with
  | Some v => v
  | None => default
  end.

(** [bool(v)] *)
Definition truthy (v : pyval) : bool :=
  match v with
  | PyNone => false
  | PyBool b => b
  | PyInt n => negb (Z.eqb n 0)
  | PyFloat (S754_zero _) => false
  | PyFloat _ => true
  | PyStr s => negb (PyString.is_empty s)
  | PyList l => match l with [] => false | _ => true end
  | PyDict d => match d with [] => false | _ => true end
  end.

(** [isinstance(v, int)]: [bool] is a subclass of [int], so [True] and
    [False] are the integers 1 and 0. *)
Definition as_int (v : pyval) : option Z :=
  match v with
  | PyInt n => Some n
  | PyBool b => Some (if b then 1 else 0)
  | _ => None
  end.

(** A field of a response dictionary. *)
Definition field (k : string) (r : pyval) : option pyval :=
  match r with
  | PyDict d => dict_lookup k d
  | _ => None
  end.

(** ** Process configuration and external collaborators

    The module-level globals read from the environment at start-up, the
    flag set by [import stripe], and the one operation required of the
    payment provider: [stripe.PaymentIntent.create], called with the API
    key set just before, the amount in minor units, the currency and the
    metadata; it returns the identifier of the intent or raises. *)
Record config : Type := {
  API_AUTH_TOKEN : string;
  STRIPE_AVAILABLE : bool;
  STRIPE_SECRET_KEY : string;
  STRIPE_CURRENCY : string;
  stripe_PaymentIntent_create :
    string -> Z -> string -> list (string * pyval) -> outcome string
}.

(** What the HTTP framework hands to an endpoint for the [Authorization]
    header: [None] when there is none, else its scheme and its credentials. *)
Record HTTPAuthorizationCredentials : Type := {
  scheme : string;
  credentials : string
}.

(** ** Code shared verbatim by the three services *)
Module Common.

Import PyString.

Definition _is_https_url (value : pyval) : bool :=
  match value with
  | PyStr s => startswith "https://" s
  | _ => false
  end.

Definition publish_listing (service_id openapi_url llm_txt_url : pyval) : pyval :=
  if match service_id with
     | PyStr s => is_empty (strip s)
     | _ => true
     end
  then PyDict [("success", PyBool false); ("listing", PyNone);
               ("error", PyStr "INVALID_SERVICE")]
  else if (negb (_is_https_url openapi_url) || negb (_is_https_url llm_txt_url))%bool
  then PyDict [("success", PyBool false); ("listing", PyNone);
               ("error", PyStr "INVALID_URL")]
  else PyDict [("success", PyBool true);
               ("listing", PyDict [("service_id", service_id);
                                   ("openapi_url", openapi_url);
                                   ("llm_txt_url", llm_txt_url)]);
               ("error", PyNone)].

(** [_auth_header_from_credentials], the same text in the three files. *)
Definition _auth_header_from_credentials
    (creds : option HTTPAuthorizationCredentials) : string :=
  match creds with
  | None => ""
  | Some c => scheme c ++ " " ++ credentials c
  end.

(** The body of [create_usage_charge] is the same text in the three files;
    only the authorizer, the unit price and the allow-list it refers to
    differ. *)
Section UsageBiller.

Variable _is_authorized : config -> pyval -> bool.
Variable PRICE_PER_UNIT : PyFloat.float.
Variable ALLOWED_SERVICES : list string.

(** [isinstance(service_id, str) and service_id in ALLOWED_SERVICES] *)
Definition allowed_service (service_id : pyval) : bool :=
  match service_id with
  | PyStr s => existsb (String.eqb s) ALLOWED_SERVICES
  | _ => false
  end.

(** [round(units * PRICE_PER_UNIT, 4)] *)
Definition amount_of (n : Z) : outcome PyFloat.float :=
  product <- PyFloat.int_mul n PRICE_PER_UNIT ;;
  PyFloat.round product 4.

(** The [charge] dictionary as first built. *)
Definition pending_charge (agent_id service_id units : pyval)
    (amount_usd : PyFloat.float) : list (string * pyval) :=
  [("agent_id", agent_id); ("service_id", service_id); ("units", units);
   ("amount_usd", PyFloat amount_usd); ("status", PyStr "pending")].

(** The body of the [try]: [int(amount_usd * 100)], then the provider. *)
Definition create_intent (cfg : config) (agent_id service_id units : pyval)
    (amount_usd : PyFloat.float) : outcome string :=
  minor <- PyFloat.mul_int amount_usd 100 ;;
  amount <- PyFloat.to_int minor ;;
  stripe_PaymentIntent_create cfg (STRIPE_SECRET_KEY cfg) amount
    (STRIPE_CURRENCY cfg)
    [("agent_id", agent_id); ("service_id", service_id); ("units", units)].

(** [STRIPE_AVAILABLE and STRIPE_SECRET_KEY] *)
Definition provider_configured (cfg : config) : bool :=
  (STRIPE_AVAILABLE cfg && negb (is_empty (STRIPE_SECRET_KEY cfg)))%bool.

Definition create_usage_charge (cfg : config)
    (agent_id service_id units auth_token : pyval) : outcome pyval :=
  if negb (_is_authorized cfg auth_token)
  then Returned (PyDict [("success", PyBool false); ("charge", PyNone);
                         ("error", PyStr "UNAUTHORIZED")])
  else if negb (allowed_service service_id)
  then Returned (PyDict [("success", PyBool false); ("charge", PyNone);
                         ("error", PyStr "UNKNOWN_SERVICE")])
  else
    match as_int units with
    | None => Returned (PyDict [("success", PyBool false); ("charge", PyNone);
                                ("error", PyStr "INVALID_UNITS")])
    | Some n =>
        if n <=? 0
        then Returned (PyDict [("success", PyBool false); ("charge", PyNone);
                               ("error", PyStr "INVALID_UNITS")])
        else
          amount_usd <- amount_of n ;;
          let charge := pending_charge agent_id service_id units amount_usd in
          if provider_configured cfg
          then
            match create_intent cfg agent_id service_id units amount_usd with
            | Returned intent_id =>
                let charge := dict_set "status" (PyStr "billed") charge in
                let charge := dict_set "payment_intent_id" (PyStr intent_id) charge in
                Returned (PyDict [("success", PyBool true);
                                  ("charge", PyDict charge); ("error", PyNone)])
            | Raised _ =>
                Returned (PyDict [("success", PyBool false); ("charge", PyNone);
                                  ("error", PyStr "STRIPE_ERROR")])
            end
          else Returned (PyDict [("success", PyBool true);
                                 ("charge", PyDict charge); ("error", PyNone)])
    end.

End UsageBiller.

End Common.

(** ** vector1_app.py *)
Module Vector1.

Import PyString.

Definition PRICE_PER_UNIT : PyFloat.float := PyFloat.of_decimal 2 2.

Definition ALLOWED_SERVICES : list string :=
  ["extract_markdown"; "create_usage_charge"; "publish_listing"].

Definition _is_authorized (cfg : config) (auth_token : pyval) : bool :=
  match auth_token with
  | PyStr s =>
      if negb (startswith "Bearer " s) then false
      else if is_empty (API_AUTH_TOKEN cfg) then true
      else String.eqb s ("Bearer " ++ API_AUTH_TOKEN cfg)
  | _ => false
  end.

Definition _is_https_url := Common._is_https_url.

Definition nl : string := String (ascii_of_nat 10) EmptyString.

Definition extract_markdown (cfg : config) (url options auth_token : pyval) : pyval :=
  if negb (_is_authorized cfg auth_token)
  then PyDict [("success", PyBool false); ("markdown", PyNone);
               ("metadata", PyNone); ("error", PyStr "UNAUTHORIZED")]
  else if negb (_is_https_url url)
  then PyDict [("success", PyBool false); ("markdown", PyNone);
               ("metadata", PyNone); ("error", PyStr "INVALID_URL")]
  else
    match url with
    | PyStr u =>
        if contains "site-que-falla" u
        then PyDict [("success", PyBool false); ("markdown", PyNone);
                     ("metadata", PyNone); ("error", PyStr "EXTRACTION_FAILED")]
        else
          let render_js :=
            match options with
            | PyDict d => truthy (dict_get "render_js" d)
            | _ => false
            end in
          let include_links :=
            match options with
            | PyDict d => truthy (dict_get "include_links" d)
            | _ => false
            end in
          let title := if contains "example.com" u then Some "Example Site" else None in
          let base_text :=
            "# " ++ match title with Some t => t | None => "Document" end
                 ++ nl ++ nl ++ "Extracted content." in
          let base_text := if render_js then base_text ++ " Rendered." else base_text in
          let base_text := if include_links then base_text ++ " Source: " ++ u else base_text in
          let token_count := Z.max 1 (Z.of_nat (List.length (split base_text))) in
          let word_count := token_count in
          PyDict [("success", PyBool true);
                  ("markdown", PyStr base_text);
                  ("metadata",
                   PyDict [("source_url", url);
                           ("title", match title with Some t => PyStr t | None => PyNone end);
                           ("token_count", PyInt token_count);
                           ("word_count", PyInt word_count)]);
                  ("error", PyNone)]
    | _ =>
        (* not reached: [_is_https_url] holds of a [str] only *)
        PyDict [("success", PyBool false); ("markdown", PyNone);
                ("metadata", PyNone); ("error", PyStr "INVALID_URL")]
    end.

Definition create_usage_charge :=
  Common.create_usage_charge _is_authorized PRICE_PER_UNIT ALLOWED_SERVICES.

Definition publish_listing := Common.publish_listing.

(** The endpoints: each returns the content it hands to [JSONResponse]. *)
Definition _auth_header_from_credentials := Common._auth_header_from_credentials.

Definition api_extract (cfg : config) (payload : list (string * pyval))
    (creds : option HTTPAuthorizationCredentials) : pyval :=
  let auth_header := _auth_header_from_credentials creds in
  extract_markdown cfg (dict_get "url" payload)
    (dict_get_default "options" (PyDict []) payload) (PyStr auth_header).

Definition api_usage (cfg : config) (payload : list (string * pyval))
    (creds : option HTTPAuthorizationCredentials) : outcome pyval :=
  let auth_header := _auth_header_from_credentials creds in
  create_usage_charge cfg (dict_get "agent_id" payload)
    (dict_get "service_id" payload) (dict_get "units" payload) (PyStr auth_header).

Definition api_listing (payload : list (string * pyval)) : pyval :=
  publish_listing (dict_get "service_id" payload) (dict_get "openapi_url" payload)
    (dict_get "llm_txt_url" payload).

End Vector1.

(** ** The authorizer of vector2_app.py and vector3_app.py

    [_normalize_auth_token] and [_is_authorized] are the same text in both
    files. *)
Module TokenAuth.

Import PyString.

(** A test together with the proof of its value, for the loop guard. *)
Definition inspect {A : Type} (x : A) : {y : A | x = y} := exist _ x eq_refl.

(** The loop [while token.lower().startswith("bearer "): token = token[7:].strip()] *)
Equations? strip_bearer (token : string) : string
  by wf (String.length token) lt :=
  strip_bearer token with inspect (startswith "bearer " (lower token)) := {
    | exist _ true Hloop => strip_bearer (strip (drop 7 token));
    | exist _ false _ => token }.
Proof.
  (* one turn of the loop shortens the token: seven characters are cut,
     and stripping never lengthens *)
  assert (Hl : forall s, (String.length (lstrip s) <= String.length s)%nat).
  { induction s as [|c s IH]; simpl; [lia|].
    destruct (isspace c); simpl; lia. }
  assert (Hr : forall s, (String.length (rstrip s) <= String.length s)%nat).
  { induction s as [|c s IH]; simpl; [lia|].
    destruct (isspace c && is_empty (rstrip s))%bool; simpl; lia. }
  assert (Hd : forall n s, String.length (drop n s) = (String.length s - n)%nat).
  { induction n as [|n IH]; intros s; simpl; [lia|].
    destruct s as [|c s]; simpl; [reflexivity|apply IH]. }
  assert (Hw : forall s, String.length (lower s) = String.length s).
  { induction s as [|c s IH]; simpl; congruence. }
  assert (Hp : forall p s, startswith p s = true ->
                           (String.length p <= String.length s)%nat).
  { induction p as [|a p IH]; intros s H; simpl in *; [lia|].
    destruct s as [|b s]; [discriminate|].
    apply andb_true_iff in H as [_ H]. apply IH in H. simpl; lia. }
  change (startswith "bearer " (lower token) = true) in Hloop.
  change (String.length (strip (drop 7 token)) < String.length token)%nat.
  apply Hp in Hloop. rewrite Hw in Hloop. simpl in Hloop.
  unfold strip.
  specialize (Hl (rstrip (drop 7 token))).
  specialize (Hr (drop 7 token)).
  rewrite Hd in Hr. lia.
Qed.

Definition _normalize_auth_token (auth_token : pyval) : string :=
  match auth_token with
  | PyStr s => strip_bearer (strip s)
  | _ => ""
  end.

Definition _is_authorized (cfg : config) (auth_token : pyval) : bool :=
  let token := _normalize_auth_token auth_token in
  if is_empty token then false
  else if is_empty (API_AUTH_TOKEN cfg) then true
  else String.eqb token (API_AUTH_TOKEN cfg).

End TokenAuth.

(** ** The standard library's strict base64 check

    [base64.b64decode(s, validate=True)] on a [str], as CPython 3.11 runs
    it ([binascii.a2b_base64] in strict mode): [true] when it returns,
    [false] when it raises. *)
Module Base64.

Import PyString.

Definition is_alphabet (c : ascii) : bool :=
  let n := N_of_ascii c in
  (char_in 65 90 n || char_in 97 122 n || char_in 48 57 n
   || N.eqb n 43 || N.eqb n 47)%bool.

Definition is_pad (c : ascii) : bool := N.eqb (N_of_ascii c) 61.

Fixpoint is_ascii (s : string) : bool :=
  match s with
  | EmptyString => true
  | String c s' => (N.ltb (N_of_ascii c) 128 && is_ascii s')%bool
  end.

(** The scanning loop: [quad_pos] is the position in the current group of
    four, [pads] counts the pads seen in it, [padding_started] is set by the
    first pad. *)
Fixpoint scan (quad_pos pads : nat) (padding_started : bool) (s : string) : bool :=
  match s with
  | EmptyString => Nat.eqb quad_pos 0
  | String c s' =>
      if is_pad c then
        if (2 <=? quad_pos)%nat then
          if (4 <=? quad_pos + S pads)%nat
          then is_empty s'                  (* "Excess data after padding" *)
          else scan quad_pos (S pads) true s'
        else scan quad_pos pads true s'
      else if negb (is_alphabet c) then false   (* "Only base64 data is allowed" *)
      else if padding_started then false        (* "Discontinuous padding" *)
      else scan (Nat.modulo (S quad_pos) 4) 0 false s'
  end.

Definition b64decode_validate (s : string) : bool :=
  if negb (is_ascii s) then false
  else match s with
       | String c _ => if is_pad c then false else scan 0 0 false s
       | EmptyString => true
       end.

End Base64.

(** ** vector2_app.py *)
Module Vector2.

Import PyString.

Definition PRICE_PER_UNIT : PyFloat.float := PyFloat.of_decimal 5 2.

Definition ALLOWED_SERVICES : list string :=
  ["run_skill"; "create_usage_charge"; "publish_listing"].

Definition _normalize_auth_token := TokenAuth._normalize_auth_token.
Definition _is_authorized := TokenAuth._is_authorized.
Definition _is_https_url := Common._is_https_url.

Definition run_skill (cfg : config) (skill_id payload_b64 auth_token : pyval) : pyval :=
  if negb (_is_authorized cfg auth_token)
  then PyDict [("success", PyBool false); ("result", PyNone);
               ("error", PyStr "UNAUTHORIZED")]
  else if match skill_id with
          | PyStr s => negb (String.eqb s "pdf_financials")
          | _ => true
          end
  then PyDict [("success", PyBool false); ("result", PyNone);
               ("error", PyStr "UNKNOWN_SKILL")]
  else
    match payload_b64 with
    | PyStr p =>
        if is_empty p
        then PyDict [("success", PyBool false); ("result", PyNone);
                     ("error", PyStr "INVALID_PAYLOAD")]
        else if contains "BAD" p
        then PyDict [("success", PyBool false); ("result", PyNone);
                     ("error", PyStr "SKILL_FAILED")]
        else if negb (Base64.b64decode_validate p)
        then PyDict [("success", PyBool false); ("result", PyNone);
                     ("error", PyStr "INVALID_PAYLOAD")]
        else PyDict [("success", PyBool true);
                     ("result", PyDict [("tables", PyInt 1); ("rows", PyInt 10)]);
                     ("error", PyNone)]
    | _ => PyDict [("success", PyBool false); ("result", PyNone);
                   ("error", PyStr "INVALID_PAYLOAD")]
    end.

Definition create_usage_charge :=
  Common.create_usage_charge _is_authorized PRICE_PER_UNIT ALLOWED_SERVICES.

Definition publish_listing := Common.publish_listing.

(** The endpoints: each returns the content it hands to [JSONResponse]. *)
Definition _auth_header_from_credentials := Common._auth_header_from_credentials.

Definition api_run_skill (cfg : config) (payload : list (string * pyval))
    (creds : option HTTPAuthorizationCredentials) : pyval :=
  let auth_header := _auth_header_from_credentials creds in
  run_skill cfg (dict_get "skill_id" payload) (dict_get "payload_b64" payload)
    (PyStr auth_header).

Definition api_usage (cfg : config) (payload : list (string * pyval))
    (creds : option HTTPAuthorizationCredentials) : outcome pyval :=
  let auth_header := _auth_header_from_credentials creds in
  create_usage_charge cfg (dict_get "agent_id" payload)
    (dict_get "service_id" payload) (dict_get "units" payload) (PyStr auth_header).

Definition api_listing (payload : list (string * pyval)) : pyval :=
  publish_listing (dict_get "service_id" payload) (dict_get "openapi_url" payload)
    (dict_get "llm_txt_url" payload).

End Vector2.

(** ** vector3_app.py *)
Module Vector3.

Import PyString.

Definition PRICE_PER_UNIT : PyFloat.float := PyFloat.of_decimal 3 2.

Definition ALLOWED_SERVICES : list string :=
  ["generate_llm_txt"; "create_usage_charge"; "publish_listing"].

Definition _normalize_auth_token := TokenAuth._normalize_auth_token.
Definition _is_authorized := TokenAuth._is_authorized.
Definition _is_https_url := Common._is_https_url.

Definition nl : string := String (ascii_of_nat 10) EmptyString.

Definition generate_llm_txt (cfg : config) (domain auth_token : pyval) : pyval :=
  if negb (_is_authorized cfg auth_token)
  then PyDict [("success", PyBool false); ("llm_txt", PyNone);
               ("llm_full_txt", PyNone); ("error", PyStr "UNAUTHORIZED")]
  else
    match domain with
    | PyStr d =>
        if (contains "http" d || contains "/" d || contains " " d)%bool
        then PyDict [("success", PyBool false); ("llm_txt", PyNone);
                     ("llm_full_txt", PyNone); ("error", PyStr "INVALID_DOMAIN")]
        else if contains "site-que-falla" d
        then PyDict [("success", PyBool false); ("llm_txt", PyNone);
                     ("llm_full_txt", PyNone); ("error", PyStr "CRAWL_FAILED")]
        else
          let llm_txt := "site: " ++ d ++ nl ++ "summary: agentic-ready" in
          let llm_full_txt :=
            "site: " ++ d ++ nl ++ "paths:" ++ nl ++ "- /" ++ nl ++ "- /docs" in
          PyDict [("success", PyBool true); ("llm_txt", PyStr llm_txt);
                  ("llm_full_txt", PyStr llm_full_txt); ("error", PyNone)]
    | _ => PyDict [("success", PyBool false); ("llm_txt", PyNone);
                   ("llm_full_txt", PyNone); ("error", PyStr "INVALID_DOMAIN")]
    end.

Definition create_usage_charge :=
  Common.create_usage_charge _is_authorized PRICE_PER_UNIT ALLOWED_SERVICES.

Definition publish_listing := Common.publish_listing.

(** The endpoints: each returns the content it hands to [JSONResponse]. *)
Definition _auth_header_from_credentials := Common._auth_header_from_credentials.

Definition api_llm_txt (cfg : config) (payload : list (string * pyval))
    (creds : option HTTPAuthorizationCredentials) : pyval :=
  let auth_header := _auth_header_from_credentials creds in
  generate_llm_txt cfg (dict_get "domain" payload) (PyStr auth_header).

Definition api_usage (cfg : config) (payload : list (string * pyval))
    (creds : option HTTPAuthorizationCredentials) : outcome pyval :=
  let auth_header := _auth_header_from_credentials creds in
  create_usage_charge cfg (dict_get "agent_id" payload)
    (dict_get "service_id" payload) (dict_get "units" payload) (PyStr auth_header).

Definition api_listing (payload : list (string * pyval)) : pyval :=
  publish_listing (dict_get "service_id" payload) (dict_get "openapi_url" payload)
    (dict_get "llm_txt_url" payload).

End Vector3.

(** ** Vocabulary of the statements *)

(** The three services. *)
Inductive vector : Set := V1 | V2 | V3.

Definition is_authorized (v : vector) : config -> pyval -> bool :=
  match v with
  | V1 => Vector1._is_authorized
  | V2 => Vector2._is_authorized
  | V3 => Vector3._is_authorized
  end.

Definition price (v : vector) : PyFloat.float :=
  match v with
  | V1 => Vector1.PRICE_PER_UNIT
  | V2 => Vector2.PRICE_PER_UNIT
  | V3 => Vector3.PRICE_PER_UNIT
  end.

(** The unit price in hundredths: 0.02, 0.05, 0.03. *)
Definition cents (v : vector) : Z :=
  match v with V1 => 2 | V2 => 5 | V3 => 3 end.

Definition allow_list (v : vector) : list string :=
  match v with
  | V1 => Vector1.ALLOWED_SERVICES
  | V2 => Vector2.ALLOWED_SERVICES
  | V3 => Vector3.ALLOWED_SERVICES
  end.

Definition create_usage_charge (v : vector)
  : config -> pyval -> pyval -> pyval -> pyval -> outcome pyval :=
  match v with
  | V1 => Vector1.create_usage_charge
  | V2 => Vector2.create_usage_charge
  | V3 => Vector3.create_usage_charge
  end.

Definition publish_listing (v : vector) : pyval -> pyval -> pyval -> pyval :=
  match v with
  | V1 => Vector1.publish_listing
  | V2 => Vector2.publish_listing
  | V3 => Vector3.publish_listing
  end.

(** The response of the usage biller. *)
Definition charge_error (code : string) : pyval :=
  PyDict [("success", PyBool false); ("charge", PyNone); ("error", PyStr code)].

Definition charge_ok (charge : list (string * pyval)) : pyval :=
  PyDict [("success", PyBool true); ("charge", PyDict charge); ("error", PyNone)].

(** The charge after the provider confirmed it. *)
Definition billed_charge (agent_id service_id units : pyval)
    (amount_usd : PyFloat.float) (intent_id : string) : list (string * pyval) :=
  [("agent_id", agent_id); ("service_id", service_id); ("units", units);
   ("amount_usd", PyFloat amount_usd); ("status", PyStr "billed");
   ("payment_intent_id", PyStr intent_id)].

(** The amount carried by a response, when it carries a charge. *)
Definition charge_amount (r : pyval) : option pyval :=
  match field "charge" r with
  | Some c => field "amount_usd" c
  | None => None
  end.

(** Equality of two computed amounts, as a test. *)
Definition same_amount (x y : outcome PyFloat.float) : bool :=
  match x, y with
  | Returned (S754_finite s m e), Returned (S754_finite s' m' e') =>
      (Bool.eqb s s' && Pos.eqb m m' && Z.eqb e e')%bool
  | _, _ => false
  end.

(** The amounts for 1 to [n] units are the doubles nearest to the exact
    decimal products. *)
Definition amounts_exact_upto (v : vector) (n : nat) : bool :=
  forallb (fun k => same_amount (Common.amount_of (price v) (Z.of_nat k))
                      (Returned (PyFloat.of_decimal (Z.of_nat k * cents v) 2)))
          (seq 1 n).

(** A positive integer among the Python values. [bool] is a subclass of
    [int] and [True == 1], so [True] is one; [False], floats, strings,
    [None], lists and dictionaries are not. *)
Definition positive_integer (units : pyval) : Prop :=
  match units with
  | PyInt n => 0 < n
  | PyBool b => b = true
  | _ => False
  end.

(** The rule of the authorizer in terms of the normalized credential. *)
Definition secret_rule (secret token : string) : Prop :=
  (secret = "" /\ token <> "") \/ (secret <> "" /\ token = secret).

(** Whitespace only. *)
Fixpoint blank (s : string) : bool :=
  match s with
  | EmptyString => true
  | String c s' => (PyString.isspace c && blank s')%bool
  end.


(** A non-empty [str]. *)
Definition nonempty_str (value : pyval) : bool :=
  match value with
  | PyStr s => negb (PyString.is_empty s)
  | _ => false
  end.

(** A [str] that contains the marker. *)
Definition has_marker (marker : string) (value : pyval) : bool :=
  match value with
  | PyStr s => PyString.contains marker s
  | _ => false
  end.

(** The payload check of [run_skill]: a non-empty [str] that decodes. *)
Definition valid_payload (payload_b64 : pyval) : bool :=
  match payload_b64 with
  | PyStr p => (negb (PyString.is_empty p) && Base64.b64decode_validate p)%bool
  | _ => false
  end.

(** The domain check of [generate_llm_txt]. *)
Definition valid_domain (domain : pyval) : bool :=
  match domain with
  | PyStr d => negb (PyString.contains "http" d || PyString.contains "/" d
                     || PyString.contains " " d)
  | _ => false
  end.

(** The service identifier check of [publish_listing]. *)
Definition valid_service_id (service_id : pyval) : bool :=
  match service_id with
  | PyStr s => negb (PyString.is_empty (PyString.strip s))
  | _ => false
  end.

(** The shape every response is meant to have: [success] is a boolean,
    true exactly when [error] is [None], and false exactly when each of the
    payload fields is [None]. *)
Definition well_formed (payload : list string) (r : pyval) : Prop :=
  exists b : bool,
    field "success" r = Some (PyBool b) /\
    (b = true <-> field "error" r = Some PyNone) /\
    Forall (fun k => b = false <-> field k r = Some PyNone) payload.

(** The billing and listing endpoints of each service. *)
Definition api_usage (v : vector)
  : config -> list (string * pyval) -> option HTTPAuthorizationCredentials
    -> outcome pyval :=
  match v with
  | V1 => Vector1.api_usage
  | V2 => Vector2.api_usage
  | V3 => Vector3.api_usage
  end.

Definition api_listing (v : vector) : list (string * pyval) -> pyval :=
  match v with
  | V1 => Vector1.api_listing
  | V2 => Vector2.api_listing
  | V3 => Vector3.api_listing
  end.

(** The same configuration with another payment provider behind it. *)
Definition with_provider (cfg : config)
    (create : string -> Z -> string -> list (string * pyval) -> outcome string)
  : config := {|
  API_AUTH_TOKEN := API_AUTH_TOKEN cfg;
  STRIPE_AVAILABLE := STRIPE_AVAILABLE cfg;
  STRIPE_SECRET_KEY := STRIPE_SECRET_KEY cfg;
  STRIPE_CURRENCY := STRIPE_CURRENCY cfg;
  stripe_PaymentIntent_create := create
|}.

(** [int(amount_usd * 100)], the amount handed to the provider. *)
Definition minor_units (amount_usd : PyFloat.float) : outcome Z :=
  minor <- PyFloat.mul_int amount_usd 100 ;; PyFloat.to_int minor.

(** The provider is handed at most the exact number of cents, and at
    least one cent less, for 1 to [n] units. *)
Definition cents_within_one_upto (v : vector) (n : nat) : bool :=
  forallb (fun k =>
             match (a <- Common.amount_of (price v) (Z.of_nat k) ;; minor_units a) with
             | Returned m => (Z.of_nat k * cents v - 1 <=? m) && (m <=? Z.of_nat k * cents v)
             | Raised _ => false
             end)%bool
          (seq 1 n).

(** An option of [extract_markdown]: set when [options] is a dictionary
    whose entry is truthy. *)
Definition option_flag (name : string) (options : pyval) : bool :=
  match options with
  | PyDict d => truthy (dict_get name d)
  | _ => false
  end.

(** The number of words of the markdown stub. *)
Definition expected_tokens (titled render_js include_links : bool) (url : string) : Z :=
  (if titled then 5 else 4)
  + (if render_js then 1 else 0)
  + (if include_links then 1 + Z.of_nat (List.length (PyString.split url)) else 0).

(** The text of the markdown stub, by title and options. *)
Definition markdown_stub (titled render_js include_links : bool) (url : string)
  : string :=
  let base_text :=
    "# " ++ (if titled then "Example Site" else "Document")
         ++ Vector1.nl ++ Vector1.nl ++ "Extracted content." in
  let base_text := if render_js then base_text ++ " Rendered." else base_text in
  if include_links then base_text ++ " Source: " ++ url else base_text.

(** Every character of the string passes the test. *)
Fixpoint all_chars (test : ascii -> bool) (s : string) : bool :=
  match s with
  | EmptyString => true
  | String c s' => (test c && all_chars test s')%bool
  end.

(** A development configuration: no secret, no payment provider. *)
Definition dev_config : config := {|
  API_AUTH_TOKEN := "";
  STRIPE_AVAILABLE := false;
  STRIPE_SECRET_KEY := "";
  STRIPE_CURRENCY := "usd";
  stripe_PaymentIntent_create := fun _ _ _ _ => Raised (ProviderError "unreachable")
|}.

(** A production configuration whose provider answers [answer]. *)
Definition live_config (answer : outcome string) : config := {|
  API_AUTH_TOKEN := "s3cret";
  STRIPE_AVAILABLE := true;
  STRIPE_SECRET_KEY := "sk_test";
  STRIPE_CURRENCY := "usd";
  stripe_PaymentIntent_create := fun _ _ _ _ => answer
|}.

(** * Properties *)

(** ** Strings *)
Section StringFacts.

Import PyString.

Lemma lstrip_idem (s : string) : lstrip (lstrip s) = lstrip s.
Proof.
  induction s as [|c s IH]; simpl; [reflexivity|].
  destruct (isspace c) eqn:E; [exact IH|].
  simpl. rewrite E. reflexivity.
Qed.

Lemma rstrip_idem (s : string) : rstrip (rstrip s) = rstrip s.
Proof.
  induction s as [|c s IH]; simpl; [reflexivity|].
  destruct (isspace c && is_empty (rstrip s))%bool eqn:E; [reflexivity|].
  simpl. rewrite IH, E. reflexivity.
Qed.

Lemma rstrip_lstrip (s : string) : rstrip (lstrip s) = lstrip (rstrip s).
Proof.
  induction s as [|c s IH]; simpl; [reflexivity|].
  destruct (isspace c) eqn:E; simpl.
  - rewrite IH. destruct (is_empty (rstrip s)) eqn:R; simpl.
    + destruct (rstrip s); [reflexivity|discriminate].
    + rewrite E. reflexivity.
  - rewrite E. reflexivity.
Qed.

Lemma strip_idem (s : string) : strip (strip s) = strip s.
Proof.
  unfold strip.
  rewrite rstrip_lstrip, rstrip_idem, lstrip_idem. reflexivity.
Qed.

(** The unfolding of the loop. *)
Lemma strip_bearer_unfold (token : string) :
  TokenAuth.strip_bearer token =
  if startswith "bearer " (lower token)
  then TokenAuth.strip_bearer (strip (drop 7 token))
  else token.
Proof.
  funelim (TokenAuth.strip_bearer token).
  - rewrite Hloop. reflexivity.
  - rewrite e. reflexivity.
Qed.

End StringFacts.

(** ** Credential normalization (vectors 2 and 3) *)
Section Normalization.

Import PyString.

Lemma is_empty_false (s : string) : is_empty s = false <-> s <> "".
Proof. destruct s; simpl; split; congruence. Qed.

Lemma is_empty_true (s : string) : is_empty s = true <-> s = "".
Proof. destruct s; simpl; split; congruence. Qed.

(** The loop stops on a token that is stripped and has no scheme prefix. *)
Lemma strip_bearer_exit (token : string) :
  strip token = token ->
  strip (TokenAuth.strip_bearer token) = TokenAuth.strip_bearer token /\
  startswith "bearer " (lower (TokenAuth.strip_bearer token)) = false.
Proof.
  funelim (TokenAuth.strip_bearer token); intros Hs.
  - apply H. apply strip_idem.
  - split; assumption.
Qed.

Lemma strip_bearer_fixed (token : string) :
  startswith "bearer " (lower token) = false ->
  TokenAuth.strip_bearer token = token.
Proof. intros H. rewrite strip_bearer_unfold, H. reflexivity. Qed.

Lemma normalize_idempotent (auth_token : pyval) :
  TokenAuth._normalize_auth_token (PyStr (TokenAuth._normalize_auth_token auth_token))
  = TokenAuth._normalize_auth_token auth_token.
Proof.
  destruct auth_token as [| | | |s| |]; try reflexivity.
  simpl. destruct (strip_bearer_exit (strip s) (strip_idem s)) as [Hs Hb].
  rewrite Hs. apply strip_bearer_fixed. exact Hb.
Qed.

Lemma lstrip_blank (w s : string) : blank w = true -> lstrip (w ++ s) = lstrip s.
Proof.
  induction w as [|c w IH]; simpl; intros H; [reflexivity|].
  apply andb_true_iff in H as [Hc Hw]. rewrite Hc. apply IH, Hw.
Qed.

Lemma rstrip_app (a s : string) :
  rstrip s <> "" -> rstrip (a ++ s) = a ++ rstrip s.
Proof.
  intros H. induction a as [|c a IH]; simpl; [reflexivity|].
  rewrite IH.
  assert (E : is_empty (a ++ rstrip s) = false).
  { destruct a; simpl; [apply is_empty_false, H|reflexivity]. }
  rewrite E, andb_false_r. reflexivity.
Qed.

Lemma strip_nonempty_rstrip (s : string) : strip s <> "" -> rstrip s <> "".
Proof. unfold strip. intros H E. rewrite E in H. apply H. reflexivity. Qed.

Lemma append_assoc (a b c : string) : (a ++ b) ++ c = a ++ b ++ c.
Proof. induction a as [|x a IH]; simpl; [reflexivity|]. rewrite IH. reflexivity. Qed.

Lemma lower_app (a b : string) : lower (a ++ b) = lower a ++ lower b.
Proof. induction a as [|c a IH]; simpl; [reflexivity|]. rewrite IH. reflexivity. Qed.

Lemma startswith_app (p t : string) : startswith p (p ++ t) = true.
Proof.
  induction p as [|c p IH]; simpl; [reflexivity|].
  rewrite Ascii.eqb_refl, IH. reflexivity.
Qed.

Lemma drop_app (p t : string) : drop (String.length p) (p ++ t) = t.
Proof. induction p as [|c p IH]; simpl; [destruct t; reflexivity|exact IH]. Qed.

Lemma length_lower (s : string) : String.length (lower s) = String.length s.
Proof. induction s; simpl; congruence. Qed.

(** A scheme prefix, in any letter case, starts with a letter. *)
Lemma prefix_head (p : string) :
  lower p = "bearer " ->
  exists c p', p = String c p' /\ isspace c = false.
Proof.
  destruct p as [|c p']; simpl; intros H; [discriminate|].
  exists c, p'. split; [reflexivity|].
  injection H as Hc _.
  destruct c as [[] [] [] [] [] [] [] []]; try reflexivity; discriminate Hc.
Qed.

(** One turn: a prefix in front of a credential that is not blank. *)
Lemma strip_prefixed (w p w' s : string) :
  blank w = true -> lower p = "bearer " -> blank w' = true ->
  strip s <> "" ->
  strip (w ++ p ++ w' ++ s) = p ++ w' ++ rstrip s.
Proof.
  intros Hw Hp Hw' Hs.
  apply strip_nonempty_rstrip in Hs.
  unfold strip.
  replace (w ++ p ++ w' ++ s) with ((w ++ p ++ w') ++ s)
    by (now rewrite !append_assoc).
  rewrite (rstrip_app _ s Hs), !append_assoc.
  rewrite (lstrip_blank w _ Hw).
  destruct (prefix_head p Hp) as (c & p' & -> & Hc).
  simpl. rewrite Hc. reflexivity.
Qed.

Lemma normalize_prefixed (w p w' s : string) :
  blank w = true -> lower p = "bearer " -> blank w' = true ->
  strip s <> "" ->
  TokenAuth._normalize_auth_token (PyStr (w ++ p ++ w' ++ s))
  = TokenAuth._normalize_auth_token (PyStr s).
Proof.
  intros Hw Hp Hw' Hs. simpl.
  rewrite (strip_prefixed w p w' s Hw Hp Hw' Hs).
  rewrite strip_bearer_unfold.
  rewrite lower_app, Hp.
  change (startswith "bearer " ("bearer " ++ lower (w' ++ rstrip s))) with true.
  cbv iota.
  assert (L : String.length p = 7%nat).
  { rewrite <- length_lower, Hp. reflexivity. }
  rewrite <- L, drop_app.
  f_equal. unfold strip.
  pose proof (strip_nonempty_rstrip s Hs) as Hr.
  rewrite rstrip_app by (rewrite rstrip_idem; exact Hr).
  rewrite rstrip_idem. apply lstrip_blank, Hw'.
Qed.



End Normalization.

(** ** The usage biller, for any authorizer, price and allow-list *)
Section BillerFacts.

Variable is_auth : config -> pyval -> bool.
Variable unit_price : PyFloat.float.
Variable allowed : list string.

Let biller := Common.create_usage_charge is_auth unit_price allowed.

Lemma biller_unauthorized cfg agent_id service_id units auth_token :
  is_auth cfg auth_token = false ->
  biller cfg agent_id service_id units auth_token
  = Returned (charge_error "UNAUTHORIZED").
Proof.
  intros H. unfold biller, Common.create_usage_charge. rewrite H. reflexivity.
Qed.

Lemma biller_unknown_service cfg agent_id service_id units auth_token :
  is_auth cfg auth_token = true ->
  Common.allowed_service allowed service_id = false ->
  biller cfg agent_id service_id units auth_token
  = Returned (charge_error "UNKNOWN_SERVICE").
Proof.
  intros Ha Hs. unfold biller, Common.create_usage_charge.
  rewrite Ha, Hs. reflexivity.
Qed.

Lemma biller_invalid_units cfg agent_id service_id units auth_token :
  is_auth cfg auth_token = true ->
  Common.allowed_service allowed service_id = true ->
  ~ positive_integer units ->
  biller cfg agent_id service_id units auth_token
  = Returned (charge_error "INVALID_UNITS").
Proof.
  intros Ha Hs Hu. unfold biller, Common.create_usage_charge.
  rewrite Ha, Hs. simpl negb. cbv iota.
  destruct units as [|b|n| | | |]; simpl in *; try reflexivity.
  - destruct b; [exfalso; apply Hu; reflexivity|reflexivity].
  - destruct (Z.leb_spec n 0) as [L|L]; [reflexivity|contradiction].
Qed.

Lemma positive_integer_as_int (units : pyval) :
  positive_integer units <-> exists n, as_int units = Some n /\ 0 < n.
Proof.
  destruct units as [|b|n| | | |]; simpl;
    try (split; [contradiction|intros (n & E & _); discriminate E]).
  - split.
    + intros ->. exists 1. split; [reflexivity|lia].
    + intros (n & E & Hn). destruct b; [reflexivity|].
      injection E as <-. lia.
  - split.
    + intros Hn. exists n. split; [reflexivity|exact Hn].
    + intros (m & E & Hm). injection E as <-. exact Hm.
Qed.

(** Past the three guards: the amount, then the provider stage. *)
Lemma biller_priced cfg agent_id service_id units auth_token n :
  is_auth cfg auth_token = true ->
  Common.allowed_service allowed service_id = true ->
  as_int units = Some n -> 0 < n ->
  biller cfg agent_id service_id units auth_token
  = (a <- Common.amount_of unit_price n ;;
     Returned
       (if Common.provider_configured cfg
        then match Common.create_intent cfg agent_id service_id units a with
             | Returned intent_id =>
                 charge_ok (billed_charge agent_id service_id units a intent_id)
             | Raised _ => charge_error "STRIPE_ERROR"
             end
        else charge_ok (Common.pending_charge agent_id service_id units a))).
Proof.
  intros Ha Hs Hu Hn. unfold biller, Common.create_usage_charge.
  rewrite Ha, Hs, Hu. simpl negb. cbv iota.
  apply Z.leb_gt in Hn. rewrite Hn.
  destruct (Common.amount_of unit_price n) as [a|e]; simpl; [|reflexivity].
  destruct (Common.provider_configured cfg); [|reflexivity].
  destruct (Common.create_intent cfg agent_id service_id units a); reflexivity.
Qed.

Lemma well_formed_charge_error (code : string) :
  well_formed ["charge"] (charge_error code).
Proof.
  exists false. simpl. repeat split; try discriminate.
  constructor; [|constructor]. split; reflexivity.
Qed.

Lemma well_formed_charge_ok (charge : list (string * pyval)) :
  well_formed ["charge"] (charge_ok charge).
Proof.
  exists true. simpl. repeat split; try discriminate.
  constructor; [|constructor]. split; discriminate.
Qed.

(** Whatever the biller returns has the response shape. *)
Lemma biller_well_formed cfg agent_id service_id units auth_token r :
  biller cfg agent_id service_id units auth_token = Returned r ->
  well_formed ["charge"] r.
Proof.
  destruct (is_auth cfg auth_token) eqn:Ha.
  2:{ rewrite biller_unauthorized by assumption.
      intros [= <-]. apply well_formed_charge_error. }
  destruct (Common.allowed_service allowed service_id) eqn:Hs.
  2:{ rewrite biller_unknown_service by assumption.
      intros [= <-]. apply well_formed_charge_error. }
  destruct (as_int units) as [n|] eqn:Hu.
  2:{ rewrite biller_invalid_units; try assumption.
      - intros [= <-]. apply well_formed_charge_error.
      - rewrite positive_integer_as_int. intros (n & E & _). congruence. }
  destruct (Z.ltb_spec 0 n) as [Hn|Hn].
  2:{ rewrite biller_invalid_units; try assumption.
      - intros [= <-]. apply well_formed_charge_error.
      - rewrite positive_integer_as_int.
        intros (m & E & Hm). rewrite Hu in E. injection E as ->. lia. }
  rewrite (biller_priced _ _ _ _ _ n) by assumption.
  destruct (Common.amount_of unit_price n) as [a|e]; simpl; [|discriminate].
  intros [= <-].
  destruct (Common.provider_configured cfg).
  - destruct (Common.create_intent cfg agent_id service_id units a).
    + apply well_formed_charge_ok.
    + apply well_formed_charge_error.
  - apply well_formed_charge_ok.
Qed.

End BillerFacts.

(** Each service's biller is the shared one at its own parameters. *)
Lemma create_usage_charge_eq (v : vector) :
  create_usage_charge v
  = Common.create_usage_charge (is_authorized v) (price v) (allow_list v).
Proof. destruct v; reflexivity. Qed.

(** The prices are the doubles nearest to 0.02, 0.05 and 0.03. *)
Lemma price_literal (v : vector) : price v = PyFloat.of_decimal (cents v) 2.
Proof. destruct v; reflexivity. Qed.

Lemma price_bits :
  price V1 = S754_finite false 5764607523034235 (-58) /\
  price V2 = S754_finite false 7205759403792794 (-57) /\
  price V3 = S754_finite false 8646911284551352 (-58).
Proof. repeat split; vm_compute; reflexivity. Qed.

(** The amounts for 1, 10 and 333 units, bit for bit: 0.02, 0.2, 6.66;
    0.05, 0.5, 16.65; 0.03, 0.3, 9.99. *)
Lemma pinned_amount_bits :
  map (fun v => map (Common.amount_of (price v)) [1; 10; 333]) [V1; V2; V3]
  = [[Returned (S754_finite false 5764607523034235 (-58));
      Returned (S754_finite false 7205759403792794 (-55));
      Returned (S754_finite false 7498493379571876 (-50))];
     [Returned (S754_finite false 7205759403792794 (-57));
      Returned (S754_finite false 4503599627370496 (-53));
      Returned (S754_finite false 4686558362232422 (-48))];
     [Returned (S754_finite false 8646911284551352 (-58));
      Returned (S754_finite false 5404319552844595 (-54));
      Returned (S754_finite false 5623870034678907 (-49))]].
Proof. vm_compute. reflexivity. Qed.

(** The amounts for 1, 10 and 333 units are the doubles nearest to the
    exact decimal products. *)
Lemma pinned_amounts (v : vector) (u : Z) :
  In u [1; 10; 333] ->
  Common.amount_of (price v) u = Returned (PyFloat.of_decimal (u * cents v) 2).
Proof.
  intros [<-|[<-|[<-|[]]]]; destruct v; vm_compute; reflexivity.
Qed.
Lemma same_amount_eq (x y : outcome PyFloat.float) :
  same_amount x y = true -> x = y.
Proof.
  destruct x as [[| | |s m e]|]; try discriminate.
  destruct y as [[| | |s' m' e']|]; try discriminate.
  simpl. intros H.
  apply andb_true_iff in H as [H He]. apply andb_true_iff in H as [Hs Hm].
  apply Bool.eqb_prop in Hs. apply Pos.eqb_eq in Hm. apply Z.eqb_eq in He.
  congruence.
Qed.

(** Up to a thousand units the float arithmetic loses nothing: the
    amount is the double nearest to the exact product [u * price]. *)
Lemma amounts_exact (v : vector) (u : Z) :
  0 < u <= 1000 ->
  Common.amount_of (price v) u = Returned (PyFloat.of_decimal (u * cents v) 2).
Proof.
  intros Hu.
  assert (H : amounts_exact_upto v (Z.to_nat 1000) = true)
    by (destruct v; vm_compute; reflexivity).
  unfold amounts_exact_upto in H. rewrite forallb_forall in H.
  specialize (H (Z.to_nat u)).
  rewrite Z2Nat.id in H by lia.
  apply same_amount_eq, H, in_seq. lia.
Qed.

(** ** The claims about the usage biller *)

(** Claim C1. For every positive unit count [u], an authorized request for
    an allow-listed service is charged [round(u * PRICE_PER_UNIT, 4)]: every
    response that carries a charge carries that amount, and without a
    payment provider the response is the pending charge with that amount
    (the call raises exactly when the expression does). The price is the
    double nearest to 0.02, 0.05 and 0.03 for vectors 1, 2 and 3, and for 1,
    10 and 333 units, as for every count up to a thousand, the amount is
    the double nearest to the exact product (0.02, 0.2, 6.66; 0.05, 0.5,
    16.65; 0.03, 0.3, 9.99). *)
Theorem C1_amount_is_rounded_product
    (v : vector) (cfg : config) (agent_id service_id auth_token : pyval) (u : Z) :
  0 < u ->
  is_authorized v cfg auth_token = true ->
  Common.allowed_service (allow_list v) service_id = true ->
  (forall r,
      create_usage_charge v cfg agent_id service_id (PyInt u) auth_token = Returned r ->
      field "success" r = Some (PyBool true) ->
      exists a,
        (x <- PyFloat.int_mul u (price v) ;; PyFloat.round x 4) = Returned a /\
        charge_amount r = Some (PyFloat a)) /\
  (Common.provider_configured cfg = false ->
   create_usage_charge v cfg agent_id service_id (PyInt u) auth_token
   = (x <- PyFloat.int_mul u (price v) ;;
      a <- PyFloat.round x 4 ;;
      Returned (charge_ok (Common.pending_charge agent_id service_id (PyInt u) a)))) /\
  price v = PyFloat.of_decimal (cents v) 2 /\
  (In u [1; 10; 333] \/ u <= 1000 ->
   (x <- PyFloat.int_mul u (price v) ;; PyFloat.round x 4)
   = Returned (PyFloat.of_decimal (u * cents v) 2)).
Proof.
  intros Hu Ha Hs.
  pose proof (biller_priced (is_authorized v) (price v) (allow_list v)
                cfg agent_id service_id (PyInt u) auth_token u Ha Hs eq_refl Hu) as E.
  rewrite <- create_usage_charge_eq in E.
  change (x <- PyFloat.int_mul u (price v) ;; PyFloat.round x 4)
    with (Common.amount_of (price v) u).
  repeat split.
  - intros r Hr Hok. rewrite E in Hr.
    destruct (Common.amount_of (price v) u) as [a|e]; simpl in Hr; [|discriminate].
    exists a. split; [reflexivity|].
    injection Hr as <-.
    destruct (Common.provider_configured cfg).
    + destruct (Common.create_intent cfg agent_id service_id (PyInt u) a).
      * reflexivity.
      * discriminate Hok.
    + reflexivity.
  - intros Hp. rewrite E, Hp. unfold Common.amount_of.
    destruct (PyFloat.int_mul u (price v)) as [x|e]; simpl; [|reflexivity].
    destruct (PyFloat.round x 4); reflexivity.
  - apply price_literal.
  - intros [Hin|Hle]; [apply pinned_amounts, Hin|apply amounts_exact; lia].
Qed.

Lemma C1_witness :
  0 < 333 /\
  is_authorized V1 dev_config (PyStr "Bearer token") = true /\
  Common.allowed_service (allow_list V1) (PyStr "extract_markdown") = true /\
  create_usage_charge V1 dev_config (PyStr "agent-1") (PyStr "extract_markdown")
    (PyInt 333) (PyStr "Bearer token")
  = Returned (charge_ok (Common.pending_charge (PyStr "agent-1")
                           (PyStr "extract_markdown") (PyInt 333)
                           (PyFloat.of_decimal 666 2))).
Proof.
  split; [lia|]. split; [reflexivity|]. split; [reflexivity|].
  destruct (C1_amount_is_rounded_product V1 dev_config (PyStr "agent-1")
              (PyStr "extract_markdown") (PyStr "Bearer token") 333
              eq_refl eq_refl eq_refl) as (_ & H & _).
  rewrite (H eq_refl). vm_compute. reflexivity.
Defined.

(** Claim C3, as stated: an identifier outside the allow-list yields
    [UNKNOWN_SERVICE] whatever the credential. It fails: the credential is
    checked first. *)
Lemma C3_counterexample :
  ~ (forall v cfg agent_id service_id units auth_token,
        Common.allowed_service (allow_list v) service_id = false ->
        create_usage_charge v cfg agent_id service_id units auth_token
        = Returned (charge_error "UNKNOWN_SERVICE")).
Proof.
  intros H.
  specialize (H V1 dev_config (PyStr "agent-1") (PyStr "no_such_service")
                (PyInt 1) (PyStr "") eq_refl).
  vm_compute in H. discriminate H.
Qed.

(** Claim C3, amended. An identifier outside the allow-list (or not a string)
    yields [UNKNOWN_SERVICE] and no charge when the credential is
    authorized, and [UNAUTHORIZED] and no charge when it is not. *)
Theorem C3_unknown_service_after_authorization
    (v : vector) (cfg : config) (agent_id service_id units auth_token : pyval) :
  Common.allowed_service (allow_list v) service_id = false ->
  create_usage_charge v cfg agent_id service_id units auth_token
  = Returned (charge_error (if is_authorized v cfg auth_token
                            then "UNKNOWN_SERVICE" else "UNAUTHORIZED")).
Proof.
  intros Hs. rewrite create_usage_charge_eq.
  destruct (is_authorized v cfg auth_token) eqn:Ha.
  - apply biller_unknown_service; assumption.
  - apply biller_unauthorized; assumption.
Qed.

Lemma C3_witness :
  Common.allowed_service (allow_list V2) (PyStr "extract_markdown") = false /\
  create_usage_charge V2 dev_config (PyStr "agent-1") (PyStr "extract_markdown")
    (PyInt 3) (PyStr "Bearer token")
  = Returned (charge_error "UNKNOWN_SERVICE").
Proof.
  split; [reflexivity|].
  exact (C3_unknown_service_after_authorization V2 dev_config (PyStr "agent-1")
           (PyStr "extract_markdown") (PyInt 3) (PyStr "Bearer token") eq_refl).
Defined.

(** Past the guards and the amount, the three outcomes of the provider
    stage. *)
Lemma provider_stage
    (v : vector) (cfg : config) (agent_id service_id units auth_token : pyval)
    (n : Z) (a : PyFloat.float) :
  is_authorized v cfg auth_token = true ->
  Common.allowed_service (allow_list v) service_id = true ->
  as_int units = Some n -> 0 < n ->
  Common.amount_of (price v) n = Returned a ->
  (Common.provider_configured cfg = true ->
   forall e, Common.create_intent cfg agent_id service_id units a = Raised e ->
   create_usage_charge v cfg agent_id service_id units auth_token
   = Returned (PyDict [("success", PyBool false); ("charge", PyNone);
                       ("error", PyStr "STRIPE_ERROR")])) /\
  (Common.provider_configured cfg = true ->
   forall intent_id,
   Common.create_intent cfg agent_id service_id units a = Returned intent_id ->
   create_usage_charge v cfg agent_id service_id units auth_token
   = Returned (PyDict [("success", PyBool true);
                       ("charge",
                        PyDict [("agent_id", agent_id); ("service_id", service_id);
                                ("units", units); ("amount_usd", PyFloat a);
                                ("status", PyStr "billed");
                                ("payment_intent_id", PyStr intent_id)]);
                       ("error", PyNone)])) /\
  (Common.provider_configured cfg = false ->
   create_usage_charge v cfg agent_id service_id units auth_token
   = Returned (PyDict [("success", PyBool true);
                       ("charge",
                        PyDict [("agent_id", agent_id); ("service_id", service_id);
                                ("units", units); ("amount_usd", PyFloat a);
                                ("status", PyStr "pending")]);
                       ("error", PyNone)])).
Proof.
  intros Ha Hs Hu Hn Hamount.
  pose proof (biller_priced (is_authorized v) (price v) (allow_list v)
                cfg agent_id service_id units auth_token n Ha Hs Hu Hn) as E.
  rewrite <- create_usage_charge_eq in E.
  rewrite Hamount in E. simpl in E.
  repeat split.
  - intros Hp e He. rewrite E, Hp, He. reflexivity.
  - intros Hp intent_id Hi. rewrite E, Hp, Hi. reflexivity.
  - intros Hp. rewrite E, Hp. reflexivity.
Qed.

(** Claim C4. For every authorized, validated charge request: a failure
    of a configured provider returns success = false, charge = null and
    [STRIPE_ERROR]; a success returns the charge with status [billed] and
    the provider's identifier; with no provider configured the charge is
    returned [pending] with success = true. The code does this for every
    request whose amount [round(units * PRICE_PER_UNIT, 4)] it can compute;
    but at 2^1024 units, authorized, allow-listed and a positive integer,
    the product raises [OverflowError] before the provider stage, outside
    any [try], and no record is returned: neither the pending charge
    without a provider, nor a billed charge or [STRIPE_ERROR] with one. *)
Theorem C4_provider_outcomes :
  (forall (v : vector) (cfg : config) (agent_id service_id units auth_token : pyval)
          (n : Z) (a : PyFloat.float),
      is_authorized v cfg auth_token = true ->
      Common.allowed_service (allow_list v) service_id = true ->
      as_int units = Some n -> 0 < n ->
      Common.amount_of (price v) n = Returned a ->
      (Common.provider_configured cfg = true ->
       forall e, Common.create_intent cfg agent_id service_id units a = Raised e ->
       create_usage_charge v cfg agent_id service_id units auth_token
       = Returned (PyDict [("success", PyBool false); ("charge", PyNone);
                           ("error", PyStr "STRIPE_ERROR")])) /\
      (Common.provider_configured cfg = true ->
       forall intent_id,
       Common.create_intent cfg agent_id service_id units a = Returned intent_id ->
       create_usage_charge v cfg agent_id service_id units auth_token
       = Returned (PyDict [("success", PyBool true);
                           ("charge",
                            PyDict [("agent_id", agent_id); ("service_id", service_id);
                                    ("units", units); ("amount_usd", PyFloat a);
                                    ("status", PyStr "billed");
                                    ("payment_intent_id", PyStr intent_id)]);
                           ("error", PyNone)])) /\
      (Common.provider_configured cfg = false ->
       create_usage_charge v cfg agent_id service_id units auth_token
       = Returned (PyDict [("success", PyBool true);
                           ("charge",
                            PyDict [("agent_id", agent_id); ("service_id", service_id);
                                    ("units", units); ("amount_usd", PyFloat a);
                                    ("status", PyStr "pending")]);
                           ("error", PyNone)]))) /\
  (forall v : vector,
      is_authorized v dev_config (PyStr "Bearer token") = true /\
      Common.allowed_service (allow_list v) (PyStr "create_usage_charge") = true /\
      positive_integer (PyInt (2 ^ 1024)) /\
      Common.provider_configured dev_config = false /\
      create_usage_charge v dev_config (PyStr "agent-1") (PyStr "create_usage_charge")
        (PyInt (2 ^ 1024)) (PyStr "Bearer token")
      = Raised OverflowError) /\
  (forall v : vector,
      is_authorized v (live_config (Returned "pi_42")) (PyStr "Bearer s3cret") = true /\
      Common.provider_configured (live_config (Returned "pi_42")) = true /\
      create_usage_charge v (live_config (Returned "pi_42")) (PyStr "agent-1")
        (PyStr "create_usage_charge") (PyInt (2 ^ 1024)) (PyStr "Bearer s3cret")
      = Raised OverflowError).
Proof.
  split; [exact provider_stage|].
  split.
  - intros v.
    split; [destruct v; reflexivity|].
    split; [destruct v; reflexivity|].
    split; [reflexivity|].
    split; [reflexivity|].
    destruct v; vm_compute; reflexivity.
  - intros v.
    split; [destruct v; reflexivity|].
    split; [reflexivity|].
    destruct v; vm_compute; reflexivity.
Qed.

Lemma C4_witness :
  let cfg := live_config (Returned "pi_42") in
  is_authorized V2 cfg (PyStr "Bearer s3cret") = true /\
  Common.allowed_service (allow_list V2) (PyStr "run_skill") = true /\
  Common.amount_of (price V2) 10 = Returned (PyFloat.of_decimal 5 1) /\
  Common.create_intent cfg (PyStr "agent-1") (PyStr "run_skill") (PyInt 10)
    (PyFloat.of_decimal 5 1) = Returned "pi_42" /\
  create_usage_charge V2 cfg (PyStr "agent-1") (PyStr "run_skill") (PyInt 10)
    (PyStr "Bearer s3cret")
  = Returned (charge_ok (billed_charge (PyStr "agent-1") (PyStr "run_skill")
                           (PyInt 10) (PyFloat.of_decimal 5 1) "pi_42")).
Proof.
  intros cfg.
  split; [reflexivity|]. split; [reflexivity|]. split; [reflexivity|].
  split; [reflexivity|].
  destruct C4_provider_outcomes as (Hstage & _).
  destruct (Hstage V2 cfg (PyStr "agent-1") (PyStr "run_skill")
              (PyInt 10) (PyStr "Bearer s3cret") 10 (PyFloat.of_decimal 5 1)
              eq_refl eq_refl eq_refl eq_refl eq_refl) as (_ & H & _).
  exact (H eq_refl "pi_42" eq_refl).
Defined.

(** Claim C6. For every unit count that is not a positive integer (zero or
    negative, or no [int] at all: a float, a string, [None], a list, a
    dictionary), an authorized request for an allow-listed service returns
    [INVALID_UNITS] and no charge. *)
Theorem C6_invalid_units
    (v : vector) (cfg : config) (agent_id service_id units auth_token : pyval) :
  is_authorized v cfg auth_token = true ->
  Common.allowed_service (allow_list v) service_id = true ->
  ~ positive_integer units ->
  create_usage_charge v cfg agent_id service_id units auth_token
  = Returned (PyDict [("success", PyBool false); ("charge", PyNone);
                      ("error", PyStr "INVALID_UNITS")]).
Proof.
  intros Ha Hs Hu. rewrite create_usage_charge_eq.
  apply biller_invalid_units; assumption.
Qed.

Lemma C6_witness :
  is_authorized V3 dev_config (PyStr "token") = true /\
  Common.allowed_service (allow_list V3) (PyStr "generate_llm_txt") = true /\
  ~ positive_integer (PyFloat (PyFloat.of_decimal 25 1)) /\
  create_usage_charge V3 dev_config (PyStr "agent-1") (PyStr "generate_llm_txt")
    (PyFloat (PyFloat.of_decimal 25 1)) (PyStr "token")
  = Returned (charge_error "INVALID_UNITS").
Proof.
  assert (Hu : ~ positive_integer (PyFloat (PyFloat.of_decimal 25 1))).
  { simpl. exact (fun H => H). }
  split; [reflexivity|]. split; [reflexivity|]. split; [exact Hu|].
  exact (C6_invalid_units V3 dev_config (PyStr "agent-1") (PyStr "generate_llm_txt")
           (PyFloat (PyFloat.of_decimal 25 1)) (PyStr "token") eq_refl eq_refl Hu).
Defined.

(** Zero, negative counts and [False] are integers but not positive. *)
Lemma not_positive_integer_cases :
  (forall n, n <= 0 -> ~ positive_integer (PyInt n)) /\
  ~ positive_integer (PyBool false).
Proof.
  split; simpl.
  - intros n Hn. lia.
  - discriminate.
Qed.

(** Claim C10. The boolean [True] as unit count, with an authorized
    credential and an allow-listed service, is not rejected as
    [INVALID_UNITS]: it passes the integer check, the amount is
    [round(1 * PRICE_PER_UNIT, 4)], and the charge returned (pending without
    a provider, billed when the provider confirms) has [True] in its units
    field. *)
Theorem C10_true_is_one_unit
    (v : vector) (cfg : config) (agent_id service_id auth_token : pyval) :
  is_authorized v cfg auth_token = true ->
  Common.allowed_service (allow_list v) service_id = true ->
  exists r a,
    create_usage_charge v cfg agent_id service_id (PyBool true) auth_token = Returned r /\
    field "error" r <> Some (PyStr "INVALID_UNITS") /\
    (x <- PyFloat.int_mul 1 (price v) ;; PyFloat.round x 4) = Returned a /\
    (Common.provider_configured cfg = false ->
     r = PyDict [("success", PyBool true);
                 ("charge",
                  PyDict [("agent_id", agent_id); ("service_id", service_id);
                          ("units", PyBool true); ("amount_usd", PyFloat a);
                          ("status", PyStr "pending")]);
                 ("error", PyNone)]) /\
    (forall intent_id,
        Common.provider_configured cfg = true ->
        Common.create_intent cfg agent_id service_id (PyBool true) a = Returned intent_id ->
        r = PyDict [("success", PyBool true);
                    ("charge",
                     PyDict [("agent_id", agent_id); ("service_id", service_id);
                             ("units", PyBool true); ("amount_usd", PyFloat a);
                             ("status", PyStr "billed");
                             ("payment_intent_id", PyStr intent_id)]);
                    ("error", PyNone)]).
Proof.
  intros Ha Hs.
  pose proof (biller_priced (is_authorized v) (price v) (allow_list v)
                cfg agent_id service_id (PyBool true) auth_token 1
                Ha Hs eq_refl eq_refl) as E.
  rewrite <- create_usage_charge_eq in E.
  assert (Hamount : Common.amount_of (price v) 1 = Returned (price v))
    by (destruct v; vm_compute; reflexivity).
  rewrite Hamount in E. simpl in E.
  eexists. exists (price v).
  split; [exact E|].
  split.
  { destruct (Common.provider_configured cfg).
    - destruct (Common.create_intent cfg agent_id service_id (PyBool true) (price v));
        simpl; discriminate.
    - simpl; discriminate. }
  split; [exact Hamount|].
  split.
  - intros Hp. rewrite Hp. reflexivity.
  - intros intent_id Hp Hi. rewrite Hp, Hi. reflexivity.
Qed.

Lemma C10_witness :
  is_authorized V1 dev_config (PyStr "Bearer token") = true /\
  Common.allowed_service (allow_list V1) (PyStr "extract_markdown") = true /\
  create_usage_charge V1 dev_config (PyStr "agent-1") (PyStr "extract_markdown")
    (PyBool true) (PyStr "Bearer token")
  = Returned (charge_ok (Common.pending_charge (PyStr "agent-1")
                           (PyStr "extract_markdown") (PyBool true)
                           (PyFloat.of_decimal 2 2))).
Proof.
  split; [reflexivity|]. split; [reflexivity|].
  destruct (C10_true_is_one_unit V1 dev_config (PyStr "agent-1")
              (PyStr "extract_markdown") (PyStr "Bearer token") eq_refl eq_refl)
    as (r & a & Hr & _ & Hamount & Hpending & _).
  rewrite Hr, (Hpending eq_refl).
  assert (Ea : a = PyFloat.of_decimal 2 2).
  { assert (E : Returned a = Returned (PyFloat.of_decimal 2 2))
      by (rewrite <- Hamount; vm_compute; reflexivity).
    injection E as E. exact E. }
  rewrite Ea. reflexivity.
Defined.

(** ** The claims about the authorizer *)

(** The authorizer of vectors 2 and 3 follows the rule on the normalized
    credential. *)
Lemma token_auth_rule (cfg : config) (auth_token : pyval) :
  TokenAuth._is_authorized cfg auth_token = true <->
  secret_rule (API_AUTH_TOKEN cfg) (TokenAuth._normalize_auth_token auth_token).
Proof.
  unfold TokenAuth._is_authorized, secret_rule.
  destruct (PyString.is_empty (TokenAuth._normalize_auth_token auth_token)) eqn:Et.
  - apply is_empty_true in Et. rewrite Et. split; [discriminate|].
    intros [[_ H]|[H1 H2]]; congruence.
  - apply is_empty_false in Et.
    destruct (PyString.is_empty (API_AUTH_TOKEN cfg)) eqn:Es.
    + apply is_empty_true in Es. split; [|reflexivity]. intros _. left. auto.
    + apply is_empty_false in Es. rewrite String.eqb_eq. split.
      * intros H. right. auto.
      * intros [[H _]|[_ H]]; congruence.
Qed.

(** The authorizer of vector 1 compares the whole header. *)
Lemma literal_auth_rule (cfg : config) (s : string) :
  Vector1._is_authorized cfg (PyStr s) = true <->
  PyString.startswith "Bearer " s = true /\
  (API_AUTH_TOKEN cfg = "" \/ s = "Bearer " ++ API_AUTH_TOKEN cfg).
Proof.
  unfold Vector1._is_authorized.
  destruct (PyString.startswith "Bearer " s) eqn:Ep; simpl.
  2:{ split; [discriminate|]. intros [H _]. discriminate H. }
  destruct (PyString.is_empty (API_AUTH_TOKEN cfg)) eqn:Es.
  - apply is_empty_true in Es. split; auto.
  - apply is_empty_false in Es. rewrite String.eqb_eq. split.
    + auto.
    + intros [_ [H|H]]; congruence.
Qed.

(** Claim C2, as stated: in each service the authorizer returns true iff
    no secret is configured and the normalized credential is non-empty, or
    a secret is configured and the normalized credential equals it. It
    fails on vector 1, which has no normalization and insists on the
    literal prefix: with no secret, the bare credential [x] is refused. *)
Lemma C2_counterexample :
  ~ (forall v cfg s,
        is_authorized v cfg (PyStr s) = true <->
        secret_rule (API_AUTH_TOKEN cfg) (TokenAuth._normalize_auth_token (PyStr s))).
Proof.
  intros H.
  destruct (H V1 dev_config "x") as [_ H2].
  assert (E : is_authorized V1 dev_config (PyStr "x") = true).
  { apply H2. left. split; [reflexivity|]. vm_compute. discriminate. }
  vm_compute in E. discriminate E.
Qed.

(** Claim C2, amended. In vectors 2 and 3, for every credential the
    authorizer returns true iff no secret is configured and the normalized
    credential is non-empty, or a secret is configured and the normalized
    credential equals it; so with no secret every non-empty normalized
    credential is authorized. In vector 1 the authorizer returns true iff
    the credential starts with the literal prefix and either no secret is
    configured or the credential is the prefix followed by the secret. *)
Theorem C2_authorizer_rule :
  (forall cfg auth_token,
      Vector2._is_authorized cfg auth_token = true <->
      secret_rule (API_AUTH_TOKEN cfg) (Vector2._normalize_auth_token auth_token)) /\
  (forall cfg auth_token,
      Vector3._is_authorized cfg auth_token = true <->
      secret_rule (API_AUTH_TOKEN cfg) (Vector3._normalize_auth_token auth_token)) /\
  (forall cfg auth_token,
      API_AUTH_TOKEN cfg = "" ->
      Vector2._normalize_auth_token auth_token <> "" ->
      Vector2._is_authorized cfg auth_token = true /\
      Vector3._is_authorized cfg auth_token = true) /\
  (forall cfg s,
      Vector1._is_authorized cfg (PyStr s) = true <->
      PyString.startswith "Bearer " s = true /\
      (API_AUTH_TOKEN cfg = "" \/ s = "Bearer " ++ API_AUTH_TOKEN cfg)).
Proof.
  split; [exact token_auth_rule|].
  split; [exact token_auth_rule|].
  split; [|exact literal_auth_rule].
  intros cfg auth_token Hs Ht.
  split; apply token_auth_rule; left; split; assumption.
Qed.

Lemma C2_witness :
  API_AUTH_TOKEN dev_config = "" /\
  Vector2._normalize_auth_token (PyStr " bearer  Bearer abc ") <> "" /\
  Vector2._is_authorized dev_config (PyStr " bearer  Bearer abc ") = true /\
  Vector3._is_authorized dev_config (PyStr " bearer  Bearer abc ") = true.
Proof.
  assert (Ht : Vector2._normalize_auth_token (PyStr " bearer  Bearer abc ") <> "").
  { vm_compute. discriminate. }
  split; [reflexivity|]. split; [exact Ht|].
  destruct C2_authorizer_rule as (_ & _ & H & _).
  exact (H dev_config (PyStr " bearer  Bearer abc ") eq_refl Ht).
Defined.

(** On vector 1 the prefix alone is accepted when no secret is configured. *)
Lemma literal_prefix_alone_accepted :
  Vector1._is_authorized dev_config (PyStr "Bearer ") = true.
Proof. reflexivity. Qed.



(** The prefix alone is no prefix of anything: stripping removes its
    space first. *)
Lemma normalize_prefix_alone :
  TokenAuth._normalize_auth_token (PyStr "Bearer ") = "Bearer".
Proof. reflexivity. Qed.

(** ** The claims about the handlers and the listing publisher *)

(** Claim C5, as stated for [run_skill]: a payload that fails the payload
    check yields [INVALID_PAYLOAD], never [SKILL_FAILED]. It fails: the
    marker is looked for before the payload is decoded, and ["BAD!"] is no
    base64 text. *)
Lemma C5_counterexample :
  ~ (forall cfg payload_b64 auth_token,
        Vector2._is_authorized cfg auth_token = true ->
        valid_payload payload_b64 = false ->
        field "error" (Vector2.run_skill cfg (PyStr "pdf_financials") payload_b64 auth_token)
        = Some (PyStr "INVALID_PAYLOAD")).
Proof.
  intros H.
  specialize (H dev_config (PyStr "BAD!") (PyStr "token") eq_refl eq_refl).
  vm_compute in H. discriminate H.
Qed.

(** Claim C5, amended. With an authorized credential: [extract_markdown]
    returns [INVALID_URL] for every url that fails the https check and
    [EXTRACTION_FAILED] only for urls that pass it; [generate_llm_txt]
    returns [INVALID_DOMAIN] for every domain that fails the domain check
    and [CRAWL_FAILED] only for domains that pass it; [run_skill], for the
    known skill, returns [INVALID_PAYLOAD] for a payload that is not a
    non-empty string, [SKILL_FAILED] for a non-empty string that contains
    the marker whether or not it decodes, and [INVALID_PAYLOAD] for a
    payload without the marker that fails the payload check. *)
Theorem C5_validation_before_simulated_failure :
  (forall cfg url options auth_token,
      Vector1._is_authorized cfg auth_token = true ->
      (Vector1._is_https_url url = false ->
       Vector1.extract_markdown cfg url options auth_token
       = PyDict [("success", PyBool false); ("markdown", PyNone);
                 ("metadata", PyNone); ("error", PyStr "INVALID_URL")]) /\
      (field "error" (Vector1.extract_markdown cfg url options auth_token)
       = Some (PyStr "EXTRACTION_FAILED") ->
       Vector1._is_https_url url = true)) /\
  (forall cfg domain auth_token,
      Vector3._is_authorized cfg auth_token = true ->
      (valid_domain domain = false ->
       Vector3.generate_llm_txt cfg domain auth_token
       = PyDict [("success", PyBool false); ("llm_txt", PyNone);
                 ("llm_full_txt", PyNone); ("error", PyStr "INVALID_DOMAIN")]) /\
      (field "error" (Vector3.generate_llm_txt cfg domain auth_token)
       = Some (PyStr "CRAWL_FAILED") ->
       valid_domain domain = true)) /\
  (forall cfg payload_b64 auth_token,
      Vector2._is_authorized cfg auth_token = true ->
      (nonempty_str payload_b64 = false ->
       Vector2.run_skill cfg (PyStr "pdf_financials") payload_b64 auth_token
       = PyDict [("success", PyBool false); ("result", PyNone);
                 ("error", PyStr "INVALID_PAYLOAD")]) /\
      (nonempty_str payload_b64 = true -> has_marker "BAD" payload_b64 = true ->
       Vector2.run_skill cfg (PyStr "pdf_financials") payload_b64 auth_token
       = PyDict [("success", PyBool false); ("result", PyNone);
                 ("error", PyStr "SKILL_FAILED")]) /\
      (has_marker "BAD" payload_b64 = false -> valid_payload payload_b64 = false ->
       Vector2.run_skill cfg (PyStr "pdf_financials") payload_b64 auth_token
       = PyDict [("success", PyBool false); ("result", PyNone);
                 ("error", PyStr "INVALID_PAYLOAD")])).
Proof.
  split; [|split].
  - intros cfg url options auth_token Ha.
    unfold Vector1.extract_markdown. rewrite Ha. simpl negb. cbv iota.
    split.
    + intros Hu. rewrite Hu. reflexivity.
    + destruct (Vector1._is_https_url url) eqn:Hu; [reflexivity|].
      simpl. discriminate.
  - intros cfg domain auth_token Ha.
    unfold Vector3.generate_llm_txt. rewrite Ha. simpl negb. cbv iota.
    destruct domain as [| | | |d| |]; simpl valid_domain;
      try (split; [reflexivity|simpl; discriminate]).
    destruct (PyString.contains "http" d || PyString.contains "/" d
              || PyString.contains " " d)%bool eqn:Ed.
    + split; [reflexivity|simpl; discriminate].
    + split; [discriminate|reflexivity].
  - intros cfg payload_b64 auth_token Ha.
    unfold Vector2.run_skill. rewrite Ha. simpl negb. cbv iota.
    destruct payload_b64 as [| | | |p| |];
      try (repeat split; intros; (reflexivity || discriminate)).
    unfold nonempty_str, has_marker, valid_payload.
    destruct (PyString.is_empty p) eqn:Ep; simpl negb.
    + repeat split; intros; (reflexivity || discriminate).
    + destruct (PyString.contains "BAD" p) eqn:Eb.
      * repeat split; intros; (reflexivity || discriminate).
      * repeat split; intros; try discriminate.
        simpl in *. match goal with H : _ = false |- _ => rewrite H end.
        reflexivity.
Qed.

Lemma C5_witness :
  Vector2._is_authorized dev_config (PyStr "Bearer token") = true /\
  nonempty_str (PyStr "QkFE!") = true /\
  has_marker "BAD" (PyStr "QkFE!") = false /\
  valid_payload (PyStr "QkFE!") = false /\
  Vector2.run_skill dev_config (PyStr "pdf_financials") (PyStr "QkFE!")
    (PyStr "Bearer token")
  = PyDict [("success", PyBool false); ("result", PyNone);
            ("error", PyStr "INVALID_PAYLOAD")].
Proof.
  split; [reflexivity|]. split; [reflexivity|]. split; [reflexivity|].
  split; [reflexivity|].
  destruct C5_validation_before_simulated_failure as (_ & _ & H).
  destruct (H dev_config (PyStr "QkFE!") (PyStr "Bearer token") eq_refl)
    as (_ & _ & H3).
  exact (H3 eq_refl eq_refl).
Defined.

(** Claim C8. [publish_listing] returns [INVALID_SERVICE] whenever the
    service identifier is not a string that is non-empty after trimming,
    whatever the urls; otherwise [INVALID_URL] if either url fails the
    https check; otherwise the listing is echoed with success = true. *)
Theorem C8_publish_listing
    (v : vector) (service_id openapi_url llm_txt_url : pyval) :
  (valid_service_id service_id = false ->
   publish_listing v service_id openapi_url llm_txt_url
   = PyDict [("success", PyBool false); ("listing", PyNone);
             ("error", PyStr "INVALID_SERVICE")]) /\
  (valid_service_id service_id = true ->
   Common._is_https_url openapi_url = false \/
   Common._is_https_url llm_txt_url = false ->
   publish_listing v service_id openapi_url llm_txt_url
   = PyDict [("success", PyBool false); ("listing", PyNone);
             ("error", PyStr "INVALID_URL")]) /\
  (valid_service_id service_id = true ->
   Common._is_https_url openapi_url = true ->
   Common._is_https_url llm_txt_url = true ->
   publish_listing v service_id openapi_url llm_txt_url
   = PyDict [("success", PyBool true);
             ("listing", PyDict [("service_id", service_id);
                                 ("openapi_url", openapi_url);
                                 ("llm_txt_url", llm_txt_url)]);
             ("error", PyNone)]).
Proof.
  assert (E : publish_listing v = Common.publish_listing) by (destruct v; reflexivity).
  rewrite E. unfold Common.publish_listing, valid_service_id.
  destruct service_id as [| | | |s| |];
    try (repeat split; intros; (reflexivity || discriminate)).
  destruct (PyString.is_empty (PyString.strip s)); simpl negb.
  - repeat split; intros; (reflexivity || discriminate).
  - repeat split; intros; try discriminate.
    + match goal with H : _ \/ _ |- _ => destruct H as [H|H]; rewrite H end.
      * reflexivity.
      * rewrite orb_true_r. reflexivity.
    + match goal with
      | H1 : Common._is_https_url openapi_url = true,
        H2 : Common._is_https_url llm_txt_url = true |- _ => rewrite H1, H2
      end. reflexivity.
Qed.

Lemma C8_witness :
  valid_service_id (PyStr "   ") = false /\
  publish_listing V1 (PyStr "   ") (PyStr "https://a.test/openapi.json")
    (PyStr "https://a.test/llm.txt")
  = PyDict [("success", PyBool false); ("listing", PyNone);
            ("error", PyStr "INVALID_SERVICE")].
Proof.
  split; [reflexivity|].
  exact (proj1 (C8_publish_listing V1 (PyStr "   ")
                  (PyStr "https://a.test/openapi.json")
                  (PyStr "https://a.test/llm.txt")) eq_refl).
Defined.

(** ** The shape of the responses *)

Ltac well_formed_with b :=
  exists b; cbn [field dict_lookup String.eqb Ascii.eqb Bool.eqb];
  split; [reflexivity|];
  split; [split; intros; first [reflexivity | discriminate]|];
  repeat (apply Forall_cons || apply Forall_nil);
  split; intros; first [reflexivity | discriminate].

Lemma extract_markdown_well_formed cfg url options auth_token :
  well_formed ["markdown"; "metadata"]
    (Vector1.extract_markdown cfg url options auth_token).
Proof.
  unfold Vector1.extract_markdown.
  destruct (negb (Vector1._is_authorized cfg auth_token)); [well_formed_with false|].
  destruct (negb (Vector1._is_https_url url)); [well_formed_with false|].
  destruct url; try well_formed_with false.
  destruct (PyString.contains "site-que-falla" s); [well_formed_with false|].
  cbv zeta. well_formed_with true.
Qed.

Lemma run_skill_well_formed cfg skill_id payload_b64 auth_token :
  well_formed ["result"] (Vector2.run_skill cfg skill_id payload_b64 auth_token).
Proof.
  unfold Vector2.run_skill.
  destruct (negb (Vector2._is_authorized cfg auth_token)); [well_formed_with false|].
  match goal with |- context [if ?c then _ else _] => destruct c end;
    [well_formed_with false|].
  destruct payload_b64; try well_formed_with false.
  destruct (PyString.is_empty s); [well_formed_with false|].
  destruct (PyString.contains "BAD" s); [well_formed_with false|].
  destruct (negb (Base64.b64decode_validate s)); [well_formed_with false|].
  well_formed_with true.
Qed.

Lemma generate_llm_txt_well_formed cfg domain auth_token :
  well_formed ["llm_txt"; "llm_full_txt"]
    (Vector3.generate_llm_txt cfg domain auth_token).
Proof.
  unfold Vector3.generate_llm_txt.
  destruct (negb (Vector3._is_authorized cfg auth_token)); [well_formed_with false|].
  destruct domain; try well_formed_with false.
  match goal with |- context [if ?c then _ else _] => destruct c end;
    [well_formed_with false|].
  destruct (PyString.contains "site-que-falla" s); [well_formed_with false|].
  cbv zeta. well_formed_with true.
Qed.

Lemma publish_listing_well_formed v service_id openapi_url llm_txt_url :
  well_formed ["listing"] (publish_listing v service_id openapi_url llm_txt_url).
Proof.
  assert (E : publish_listing v = Common.publish_listing) by (destruct v; reflexivity).
  rewrite E. unfold Common.publish_listing.
  match goal with |- context [if ?c then _ else _] => destruct c end;
    [well_formed_with false|].
  match goal with |- context [if ?c then _ else _] => destruct c end;
    [well_formed_with false|].
  well_formed_with true.
Qed.

(** Claim C9. Every response has the shape: success = true iff error is
    null, and success = false iff the payload fields are null. This holds
    of every response of [extract_markdown], [run_skill],
    [generate_llm_txt] and [publish_listing], and of every response
    [create_usage_charge] returns; but [create_usage_charge] returns none
    for a unit count too large for a float: at 2^1024 units the product
    [units * PRICE_PER_UNIT] raises [OverflowError], outside any [try]. *)
Theorem C9_response_shape :
  (forall cfg url options auth_token,
      well_formed ["markdown"; "metadata"]
        (Vector1.extract_markdown cfg url options auth_token)) /\
  (forall cfg skill_id payload_b64 auth_token,
      well_formed ["result"] (Vector2.run_skill cfg skill_id payload_b64 auth_token)) /\
  (forall cfg domain auth_token,
      well_formed ["llm_txt"; "llm_full_txt"]
        (Vector3.generate_llm_txt cfg domain auth_token)) /\
  (forall v service_id openapi_url llm_txt_url,
      well_formed ["listing"] (publish_listing v service_id openapi_url llm_txt_url)) /\
  (forall v cfg agent_id service_id units auth_token r,
      create_usage_charge v cfg agent_id service_id units auth_token = Returned r ->
      well_formed ["charge"] r) /\
  (forall v,
      create_usage_charge v dev_config (PyStr "agent-1") (PyStr "create_usage_charge")
        (PyInt (2 ^ 1024)) (PyStr "Bearer token")
      = Raised OverflowError).
Proof.
  split; [exact extract_markdown_well_formed|].
  split; [exact run_skill_well_formed|].
  split; [exact generate_llm_txt_well_formed|].
  split; [exact publish_listing_well_formed|].
  split.
  - intros v cfg agent_id service_id units auth_token r.
    rewrite create_usage_charge_eq. apply biller_well_formed.
  - intros v. destruct v; vm_compute; reflexivity.
Qed.

Lemma C9_witness :
  create_usage_charge V3 dev_config (PyStr "agent-1") (PyStr "publish_listing")
    (PyInt 0) (PyStr "token")
  = Returned (charge_error "INVALID_UNITS") /\
  well_formed ["charge"] (charge_error "INVALID_UNITS").
Proof.
  split; [reflexivity|].
  destruct C9_response_shape as (_ & _ & _ & _ & H & _).
  exact (H V3 dev_config (PyStr "agent-1") (PyStr "publish_listing")
           (PyInt 0) (PyStr "token") _ eq_refl).
Defined.

(** The largest unit count that still converts, and the first that does
    not. *)
Lemma float_conversion_bound :
  (exists f, PyFloat.of_int (2 ^ 1024 - 2 ^ 970 - 1) = Returned f) /\
  PyFloat.of_int (2 ^ 1024 - 2 ^ 970) = Raised OverflowError.
Proof.
  split; [eexists|]; vm_compute; reflexivity.
Qed.

(** Inside the [try], the same kind of failure is caught: an amount whose
    hundredfold is not finite makes [int(amount_usd * 100)] raise, and the
    response is [STRIPE_ERROR]. *)
Lemma minor_units_overflow_is_caught :
  create_usage_charge V2 (live_config (Returned "pi_42")) (PyStr "agent-1")
    (PyStr "run_skill") (PyInt (2 ^ 1023)) (PyStr "s3cret")
  = Returned (charge_error "STRIPE_ERROR").
Proof. vm_compute. reflexivity. Qed.

(** * Further properties of the code *)

Lemma startswith_length_le (q t : string) :
  PyString.startswith q (PyString.lower t) = true ->
  (String.length q <= String.length t)%nat.
Proof.
  revert t. induction q as [|a q IH]; intros t H; simpl in *; [lia|].
  destruct t as [|b t]; simpl in H; [discriminate|].
  apply andb_true_iff in H as [_ H]. apply IH in H. simpl; lia.
Qed.

(** ** The normalized credential *)
Section NormalForm.

Import PyString.

Lemma lstrip_empty_blank (s : string) : lstrip s = "" <-> blank s = true.
Proof.
  induction s as [|c s IH]; simpl; [tauto|].
  destruct (isspace c); simpl; [exact IH|].
  split; discriminate.
Qed.

Lemma rstrip_empty_blank (s : string) : rstrip s = "" <-> blank s = true.
Proof.
  induction s as [|c s IH]; simpl; [tauto|].
  destruct (isspace c); simpl.
  - destruct (is_empty (rstrip s)) eqn:E.
    + apply is_empty_true in E. split; [intros _; apply IH, E|reflexivity].
    + apply is_empty_false in E. split; [discriminate|].
      intros H. apply IH in H. contradiction.
  - split; discriminate.
Qed.

Lemma strip_empty_blank (s : string) : strip s = "" <-> blank s = true.
Proof.
  unfold strip. rewrite lstrip_empty_blank. split.
  - intros H. apply rstrip_empty_blank. rewrite <- rstrip_idem.
    apply rstrip_empty_blank, H.
  - intros H. apply rstrip_empty_blank in H. rewrite H. reflexivity.
Qed.

Lemma strip_fixed_rstrip (t : string) : strip t = t -> rstrip t = t.
Proof.
  intros H. rewrite <- H at 1. unfold strip.
  rewrite rstrip_lstrip, rstrip_idem. exact H.
Qed.

Lemma rstrip_app_blank (a b : string) : rstrip b = "" -> rstrip (a ++ b) = rstrip a.
Proof.
  intros H. induction a as [|c a IH]; simpl; [exact H|].
  rewrite IH. reflexivity.
Qed.

Lemma length_rstrip_le (s : string) :
  (String.length (rstrip s) <= String.length s)%nat.
Proof.
  induction s as [|c s IH]; simpl; [lia|].
  destruct (isspace c && is_empty (rstrip s))%bool; simpl; lia.
Qed.

Lemma length_app (a b : string) :
  String.length (a ++ b) = (String.length a + String.length b)%nat.
Proof. induction a as [|c a IH]; simpl; [reflexivity|]. rewrite IH. reflexivity. Qed.

(** A matched prefix splits the token. *)
Lemma startswith_lower_split (q t : string) :
  startswith q (lower t) = true ->
  exists p, t = p ++ drop (String.length q) t /\ lower p = q.
Proof.
  revert t. induction q as [|a q IH]; intros t H.
  - exists "". split; [destruct t; reflexivity|reflexivity].
  - destruct t as [|b t]; simpl in H; [discriminate|].
    apply andb_true_iff in H as [Hc Ht].
    apply Ascii.eqb_eq in Hc.
    destruct (IH t Ht) as (p & Hp & Hl).
    exists (String b p). split.
    + simpl. rewrite <- Hp. reflexivity.
    + simpl. rewrite Hl, <- Hc. reflexivity.
Qed.

(** The scheme prefix ends with a space, which stripping would remove. *)
Lemma prefix_not_stripped (p : string) :
  lower p = "bearer " -> (String.length (rstrip p) < 7)%nat.
Proof.
  intros H.
  assert (L : String.length p = 7%nat) by (rewrite <- length_lower, H; reflexivity).
  destruct p as [|c1 [|c2 [|c3 [|c4 [|c5 [|c6 [|c7 [|c8 p]]]]]]]]; try discriminate L.
  assert (Hc : isspace c7 = true).
  { simpl in H. injection H as _ _ _ _ _ _ H7.
    destruct c7 as [[] [] [] [] [] [] [] []]; try reflexivity; discriminate H7. }
  change (String c1 (String c2 (String c3 (String c4 (String c5 (String c6 (String c7 "")))))))
    with (String c1 (String c2 (String c3 (String c4 (String c5 (String c6 ""))))) ++ String c7 "").
  rewrite rstrip_app_blank by (simpl; rewrite Hc; reflexivity).
  pose proof (length_rstrip_le (String c1 (String c2 (String c3 (String c4 (String c5 (String c6 ""))))))) as Hle.
  simpl in Hle |- *. lia.
Qed.

(** One turn of the loop on a stripped token leaves something. *)
Lemma strip_after_prefix_nonempty (token : string) :
  strip token = token ->
  startswith "bearer " (lower token) = true ->
  strip (drop 7 token) <> "".
Proof.
  intros Hs Hb E.
  apply strip_empty_blank, rstrip_empty_blank in E.
  destruct (startswith_lower_split _ _ Hb) as (p & Hp & Hl).
  simpl String.length in Hp.
  apply strip_fixed_rstrip in Hs.
  rewrite Hp in Hs at 1. rewrite (rstrip_app_blank p _ E) in Hs.
  pose proof (prefix_not_stripped p Hl) as Hlt.
  apply startswith_length_le in Hb. simpl in Hb.
  rewrite Hs in Hlt. lia.
Qed.

End NormalForm.

Section CredentialFacts.

Import PyString.

(** On a stripped token that is not empty the loop returns something. *)
Lemma strip_bearer_nonempty (token : string) :
  strip token = token -> token <> "" -> TokenAuth.strip_bearer token <> "".
Proof.
  funelim (TokenAuth.strip_bearer token); intros Hs Hne.
  - apply H.
    + apply strip_idem.
    + apply strip_after_prefix_nonempty; assumption.
  - exact Hne.
Qed.

(** Property X1. The normalized credential of vectors 2 and 3 is in
    normal form whatever the input: it has no whitespace around it and no
    scheme prefix in any letter case; the two services compute the same
    one. *)
Theorem X1_normalized_token_canonical (auth_token : pyval) :
  strip (Vector2._normalize_auth_token auth_token)
  = Vector2._normalize_auth_token auth_token /\
  startswith "bearer " (lower (Vector2._normalize_auth_token auth_token)) = false /\
  Vector3._normalize_auth_token auth_token = Vector2._normalize_auth_token auth_token.
Proof.
  split; [|split; [|reflexivity]].
  - destruct auth_token as [| | | |s| |]; try reflexivity.
    apply (strip_bearer_exit (strip s) (strip_idem s)).
  - destruct auth_token as [| | | |s| |]; try reflexivity.
    apply (strip_bearer_exit (strip s) (strip_idem s)).
Qed.

Lemma normalize_empty_iff_blank (auth_token : pyval) :
  TokenAuth._normalize_auth_token auth_token = "" <->
  (forall s, auth_token = PyStr s -> blank s = true).
Proof.
  destruct auth_token as [| | | |s| |];
    try (split; [intros _ s H; discriminate H|reflexivity]).
  change (TokenAuth._normalize_auth_token (PyStr s))
    with (TokenAuth.strip_bearer (strip s)).
  split.
  - intros H s' [= <-]. apply strip_empty_blank.
    destruct (strip s) eqn:E; [reflexivity|].
    exfalso. refine (strip_bearer_nonempty (strip s) (strip_idem s) _ _).
    + rewrite E. discriminate.
    + rewrite E. exact H.
  - intros H. specialize (H s eq_refl). apply strip_empty_blank in H.
    rewrite H. reflexivity.
Qed.

(** Property X2. The normalized credential is empty exactly when the
    input is not a string or is a string of whitespace only: stripping
    scheme prefixes never consumes a whole credential. *)
Theorem X2_normalized_empty_iff_blank (auth_token : pyval) :
  (Vector2._normalize_auth_token auth_token = "" <->
   (forall s, auth_token = PyStr s -> blank s = true)) /\
  (Vector3._normalize_auth_token auth_token = "" <->
   (forall s, auth_token = PyStr s -> blank s = true)).
Proof. split; apply normalize_empty_iff_blank. Qed.

Lemma blank_not_bearer (s : string) :
  blank s = true -> startswith "Bearer " s = false.
Proof.
  destruct s as [|c s]; simpl; [reflexivity|].
  intros H. apply andb_true_iff in H as [Hc _].
  destruct c as [[] [] [] [] [] [] [] []]; try discriminate Hc; reflexivity.
Qed.

Lemma blank_refused (v : vector) (cfg : config) (auth_token : pyval) :
  (forall s, auth_token = PyStr s -> blank s = true) ->
  is_authorized v cfg auth_token = false.
Proof.
  intros H.
  destruct v; unfold is_authorized.
  - destruct auth_token as [| | | |s| |]; try reflexivity.
    unfold Vector1._is_authorized.
    rewrite (blank_not_bearer s (H s eq_refl)). reflexivity.
  - apply normalize_empty_iff_blank in H.
    unfold Vector2._is_authorized, TokenAuth._is_authorized.
    rewrite H. reflexivity.
  - apply normalize_empty_iff_blank in H.
    unfold Vector3._is_authorized, TokenAuth._is_authorized.
    rewrite H. reflexivity.
Qed.

(** Property X3. A credential that is missing, not a string, or blank is
    refused by the authorizer of every service, whatever the secret, also
    when no secret is configured. *)
Theorem X3_blank_credential_refused
    (v : vector) (cfg : config) (auth_token : pyval) :
  (forall s, auth_token = PyStr s -> blank s = true) ->
  is_authorized v cfg auth_token = false.
Proof. apply blank_refused. Qed.

Lemma X3_witness :
  (forall s, PyStr "  " = PyStr s -> blank s = true) /\
  is_authorized V2 dev_config (PyStr "  ") = false.
Proof.
  assert (H : forall s, PyStr "  " = PyStr s -> blank s = true).
  { intros s [= <-]. reflexivity. }
  split; [exact H|].
  exact (X3_blank_credential_refused V2 dev_config (PyStr "  ") H).
Defined.

(** Property X4. In vectors 2 and 3 a configured secret that is not in
    normal form itself (it has whitespace around it, or starts with a
    scheme prefix) locks everyone out: no credential is authorized. *)
Theorem X4_unnormalized_secret_locks_out (cfg : config) (auth_token : pyval) :
  API_AUTH_TOKEN cfg <> "" ->
  Vector2._normalize_auth_token (PyStr (API_AUTH_TOKEN cfg)) <> API_AUTH_TOKEN cfg ->
  Vector2._is_authorized cfg auth_token = false /\
  Vector3._is_authorized cfg auth_token = false.
Proof.
  intros Hne Hnf.
  assert (H : TokenAuth._is_authorized cfg auth_token = false).
  { destruct (TokenAuth._is_authorized cfg auth_token) eqn:E; [|reflexivity].
    exfalso. apply token_auth_rule in E.
    destruct E as [[E _]|[_ E]]; [contradiction|].
    apply Hnf. rewrite <- E at 1.
    change (Vector2._normalize_auth_token
              (PyStr (TokenAuth._normalize_auth_token auth_token)))
      with (TokenAuth._normalize_auth_token
              (PyStr (TokenAuth._normalize_auth_token auth_token))).
    rewrite normalize_idempotent. exact E. }
  split; exact H.
Qed.

Lemma X4_witness :
  let locked := {| API_AUTH_TOKEN := "Bearer abc";
                   STRIPE_AVAILABLE := false; STRIPE_SECRET_KEY := "";
                   STRIPE_CURRENCY := "usd";
                   stripe_PaymentIntent_create :=
                     fun _ _ _ _ => Raised (ProviderError "unused") |} in
  API_AUTH_TOKEN locked <> "" /\
  Vector2._normalize_auth_token (PyStr (API_AUTH_TOKEN locked)) <> API_AUTH_TOKEN locked /\
  Vector2._is_authorized locked (PyStr "Bearer abc") = false.
Proof.
  intros locked.
  assert (H1 : API_AUTH_TOKEN locked <> "") by discriminate.
  assert (H2 : Vector2._normalize_auth_token (PyStr (API_AUTH_TOKEN locked))
               <> API_AUTH_TOKEN locked) by (vm_compute; discriminate).
  split; [exact H1|]. split; [exact H2|].
  exact (proj1 (X4_unnormalized_secret_locks_out locked (PyStr "Bearer abc") H1 H2)).
Defined.

(** Property X5. When the configured secret is in normal form (or there
    is none), every credential that vector 1 authorizes is authorized by
    vectors 2 and 3 as well. *)
Theorem X5_literal_authorizer_is_stricter (cfg : config) (auth_token : pyval) :
  Vector2._normalize_auth_token (PyStr (API_AUTH_TOKEN cfg)) = API_AUTH_TOKEN cfg ->
  Vector1._is_authorized cfg auth_token = true ->
  Vector2._is_authorized cfg auth_token = true /\
  Vector3._is_authorized cfg auth_token = true.
Proof.
  intros Hnf H1.
  assert (H : TokenAuth._is_authorized cfg auth_token = true); [|split; exact H].
  destruct auth_token as [| | | |s| |]; try discriminate H1.
  apply literal_auth_rule in H1 as [Hp Hs].
  apply token_auth_rule.
  destruct (API_AUTH_TOKEN cfg) as [|c secret] eqn:Esec.
  - left. split; [reflexivity|].
    intros E.
    pose proof (proj1 (normalize_empty_iff_blank (PyStr s)) E s eq_refl) as B.
    apply blank_not_bearer in B. congruence.
  - right. split; [discriminate|].
    destruct Hs as [Hs|Hs]; [discriminate Hs|].
    rewrite Hs.
    change ("Bearer " ++ String c secret)
      with ("" ++ "Bearer " ++ "" ++ String c secret).
    rewrite normalize_prefixed; try reflexivity.
    + exact Hnf.
    + intros E. apply strip_empty_blank in E.
      assert (B : forall s0, PyStr (String c secret) = PyStr s0 -> blank s0 = true)
        by (intros s0 [= <-]; exact E).
      apply (proj2 (normalize_empty_iff_blank _)) in B.
      change (Vector2._normalize_auth_token (PyStr (String c secret)))
        with (TokenAuth._normalize_auth_token (PyStr (String c secret))) in Hnf.
      rewrite B in Hnf. discriminate Hnf.
Qed.

Lemma X5_witness :
  let cfg := live_config (Raised ValueError) in
  Vector2._normalize_auth_token (PyStr (API_AUTH_TOKEN cfg)) = API_AUTH_TOKEN cfg /\
  Vector1._is_authorized cfg (PyStr "Bearer s3cret") = true /\
  Vector2._is_authorized cfg (PyStr "Bearer s3cret") = true.
Proof.
  intros cfg.
  split; [reflexivity|]. split; [reflexivity|].
  exact (proj1 (X5_literal_authorizer_is_stricter cfg (PyStr "Bearer s3cret")
                  eq_refl eq_refl)).
Defined.

End CredentialFacts.

(** ** The usage biller and the payment provider *)

Lemma is_authorized_with_provider v cfg create auth_token :
  is_authorized v (with_provider cfg create) auth_token = is_authorized v cfg auth_token.
Proof. destruct v; reflexivity. Qed.

(** Property X6. The payment provider is not consulted unless the request
    is authorized, names an allow-listed service, has a positive integer
    unit count and a provider is configured: in every other case the
    outcome of [create_usage_charge] is the same whatever the provider
    would answer. *)
Theorem X6_provider_not_consulted
    (v : vector) (cfg : config)
    (create : string -> Z -> string -> list (string * pyval) -> outcome string)
    (agent_id service_id units auth_token : pyval) :
  is_authorized v cfg auth_token = false \/
  Common.allowed_service (allow_list v) service_id = false \/
  ~ positive_integer units \/
  Common.provider_configured cfg = false ->
  create_usage_charge v (with_provider cfg create) agent_id service_id units auth_token
  = create_usage_charge v cfg agent_id service_id units auth_token.
Proof.
  intros H. rewrite !create_usage_charge_eq.
  unfold Common.create_usage_charge.
  rewrite is_authorized_with_provider.
  destruct (is_authorized v cfg auth_token); [|reflexivity].
  destruct (Common.allowed_service (allow_list v) service_id); [|reflexivity].
  simpl negb. cbv iota.
  destruct (as_int units) as [n|] eqn:Hu; [|reflexivity].
  destruct (Z.leb_spec n 0) as [Hn|Hn]; [reflexivity|].
  destruct H as [H|[H|[H|H]]]; try discriminate H.
  - exfalso. apply H. apply positive_integer_as_int. exists n. auto.
  - change (Common.provider_configured (with_provider cfg create))
      with (Common.provider_configured cfg).
    rewrite H. reflexivity.
Qed.

Lemma X6_witness :
  let cfg := live_config (Returned "pi_42") in
  (is_authorized V1 cfg (PyStr "Bearer wrong") = false \/
   Common.allowed_service (allow_list V1) (PyStr "extract_markdown") = false \/
   ~ positive_integer (PyInt 3) \/
   Common.provider_configured cfg = false) /\
  create_usage_charge V1
    (with_provider cfg (fun _ _ _ _ => Raised (ProviderError "down")))
    (PyStr "agent-1") (PyStr "extract_markdown") (PyInt 3) (PyStr "Bearer wrong")
  = Returned (charge_error "UNAUTHORIZED").
Proof.
  intros cfg.
  assert (H : is_authorized V1 cfg (PyStr "Bearer wrong") = false \/
              Common.allowed_service (allow_list V1) (PyStr "extract_markdown") = false \/
              ~ positive_integer (PyInt 3) \/
              Common.provider_configured cfg = false)
    by (left; reflexivity).
  split; [exact H|].
  rewrite (X6_provider_not_consulted V1 cfg
             (fun _ _ _ _ => Raised (ProviderError "down"))
             (PyStr "agent-1") (PyStr "extract_markdown") (PyInt 3)
             (PyStr "Bearer wrong") H).
  reflexivity.
Defined.

(** What the provider is asked: the cents of the amount, the configured
    key and currency, and the three metadata entries. *)
Lemma create_intent_request cfg agent_id service_id units a m :
  minor_units a = Returned m ->
  Common.create_intent cfg agent_id service_id units a
  = stripe_PaymentIntent_create cfg (STRIPE_SECRET_KEY cfg) m (STRIPE_CURRENCY cfg)
      [("agent_id", agent_id); ("service_id", service_id); ("units", units)].
Proof.
  unfold minor_units, Common.create_intent. intros H.
  destruct (PyFloat.mul_int a 100) as [x|e]; simpl in *; [|discriminate H].
  rewrite H. reflexivity.
Qed.

Lemma cents_within_one (v : vector) (u : Z) :
  0 < u <= 1000 ->
  exists a m,
    Common.amount_of (price v) u = Returned a /\
    minor_units a = Returned m /\
    u * cents v - 1 <= m <= u * cents v.
Proof.
  intros Hu.
  assert (H : cents_within_one_upto v (Z.to_nat 1000) = true)
    by (destruct v; vm_compute; reflexivity).
  unfold cents_within_one_upto in H. rewrite forallb_forall in H.
  specialize (H (Z.to_nat u)).
  rewrite Z2Nat.id in H by lia.
  assert (Hin : In (Z.to_nat u) (seq 1 (Z.to_nat 1000))) by (apply in_seq; lia).
  specialize (H Hin).
  destruct (Common.amount_of (price v) u) as [a|e] eqn:Ea; simpl in H; [|discriminate H].
  destruct (minor_units a) as [m|e] eqn:Em; [|discriminate H].
  apply andb_true_iff in H as [H1 H2].
  apply Z.leb_le in H1. apply Z.leb_le in H2.
  exists a, m. split; [reflexivity|]. split; [exact Em|]. lia.
Qed.

(** Property X7. For 1 to 1000 units the provider is asked for
    [int(amount_usd * 100)] cents, which is the exact price in cents or one
    cent less, never more: the product [amount_usd * 100] can fall just
    below the integer and [int] truncates (29 units of vector 1 cost 0.58
    and 57 cents are requested). *)
Theorem X7_provider_amount_within_one_cent
    (v : vector) (cfg : config) (agent_id service_id units : pyval) (u : Z) :
  0 < u <= 1000 ->
  (exists a m,
      Common.amount_of (price v) u = Returned a /\
      u * cents v - 1 <= m <= u * cents v /\
      Common.create_intent cfg agent_id service_id units a
      = stripe_PaymentIntent_create cfg (STRIPE_SECRET_KEY cfg) m (STRIPE_CURRENCY cfg)
          [("agent_id", agent_id); ("service_id", service_id); ("units", units)]) /\
  (a <- Common.amount_of (price V1) 29 ;; minor_units a) = Returned 57.
Proof.
  intros Hu. split; [|vm_compute; reflexivity].
  destruct (cents_within_one v u Hu) as (a & m & Ha & Hm & Hb).
  exists a, m. split; [exact Ha|]. split; [exact Hb|].
  apply create_intent_request, Hm.
Qed.

Lemma X7_witness :
  0 < 57 <= 1000 /\
  exists a,
    Common.amount_of (price V1) 57 = Returned a /\
    Common.create_intent (live_config (Returned "pi_42")) (PyStr "agent-1")
      (PyStr "extract_markdown") (PyInt 57) a = Returned "pi_42".
Proof.
  assert (Hu : 0 < 57 <= 1000) by lia.
  split; [exact Hu|].
  destruct (X7_provider_amount_within_one_cent V1 (live_config (Returned "pi_42"))
              (PyStr "agent-1") (PyStr "extract_markdown") (PyInt 57) 57 Hu)
    as ((a & m & Ha & _ & Hc) & _).
  exists a. split; [exact Ha|]. rewrite Hc. reflexivity.
Defined.

(** Property X8. A response with success = true is only ever returned for
    an authorized credential, an allow-listed service and a positive
    integer unit count; its charge echoes the agent (which is not checked
    at all), the service and the units, and it is [billed] with a payment
    intent identifier when a provider is configured, [pending] without one
    when none is. *)
Theorem X8_charge_only_after_validation
    (v : vector) (cfg : config) (agent_id service_id units auth_token r : pyval) :
  create_usage_charge v cfg agent_id service_id units auth_token = Returned r ->
  field "success" r = Some (PyBool true) ->
  is_authorized v cfg auth_token = true /\
  Common.allowed_service (allow_list v) service_id = true /\
  positive_integer units /\
  exists charge,
    field "charge" r = Some (PyDict charge) /\
    dict_lookup "agent_id" charge = Some agent_id /\
    dict_lookup "service_id" charge = Some service_id /\
    dict_lookup "units" charge = Some units /\
    if Common.provider_configured cfg
    then dict_lookup "status" charge = Some (PyStr "billed") /\
         exists intent_id, dict_lookup "payment_intent_id" charge = Some (PyStr intent_id)
    else dict_lookup "status" charge = Some (PyStr "pending") /\
         dict_lookup "payment_intent_id" charge = None.
Proof.
  rewrite create_usage_charge_eq. intros Hr Hok.
  destruct (is_authorized v cfg auth_token) eqn:Ha.
  2:{ rewrite biller_unauthorized in Hr by assumption.
      injection Hr as <-. discriminate Hok. }
  destruct (Common.allowed_service (allow_list v) service_id) eqn:Hs.
  2:{ rewrite biller_unknown_service in Hr by assumption.
      injection Hr as <-. discriminate Hok. }
  destruct (as_int units) as [n|] eqn:Hu.
  2:{ rewrite biller_invalid_units in Hr; try assumption.
      - injection Hr as <-. discriminate Hok.
      - rewrite positive_integer_as_int. intros (n & E & _). congruence. }
  destruct (Z.ltb_spec 0 n) as [Hn|Hn].
  2:{ rewrite biller_invalid_units in Hr; try assumption.
      - injection Hr as <-. discriminate Hok.
      - rewrite positive_integer_as_int.
        intros (m & E & Hm). rewrite Hu in E. injection E as ->. lia. }
  rewrite (biller_priced _ _ _ _ _ _ _ _ n Ha Hs Hu Hn) in Hr.
  destruct (Common.amount_of (price v) n) as [a|e]; simpl in Hr; [|discriminate Hr].
  injection Hr as <-.
  split; [reflexivity|]. split; [reflexivity|].
  split; [apply positive_integer_as_int; exists n; auto|].
  destruct (Common.provider_configured cfg).
  - destruct (Common.create_intent cfg agent_id service_id units a) as [intent_id|e];
      [|discriminate Hok].
    eexists. split; [reflexivity|]. simpl.
    repeat split. exists intent_id. reflexivity.
  - eexists. split; [reflexivity|]. simpl. repeat split.
Qed.

Lemma X8_witness :
  create_usage_charge V3 dev_config PyNone (PyStr "generate_llm_txt") (PyInt 2)
    (PyStr "token")
  = Returned (charge_ok (Common.pending_charge PyNone (PyStr "generate_llm_txt")
                           (PyInt 2) (PyFloat.of_decimal 6 2))) /\
  positive_integer (PyInt 2).
Proof.
  assert (E : create_usage_charge V3 dev_config PyNone (PyStr "generate_llm_txt")
                (PyInt 2) (PyStr "token")
              = Returned (charge_ok (Common.pending_charge PyNone
                                       (PyStr "generate_llm_txt") (PyInt 2)
                                       (PyFloat.of_decimal 6 2))))
    by (vm_compute; reflexivity).
  split; [exact E|].
  exact (proj1 (proj2 (proj2 (X8_charge_only_after_validation V3 dev_config PyNone
                                (PyStr "generate_llm_txt") (PyInt 2) (PyStr "token")
                                _ E eq_refl)))).
Defined.

(** ** The capability handlers *)
Section HandlerFacts.

Import PyString.

(** Splitting at a whitespace character splits the list of words. *)
Lemma split_from_app_space (a b cur : string) (c : ascii) :
  isspace c = true ->
  split_from cur (a ++ String c b)
  = (split_from cur a ++ split_from "" (String c b))%list.
Proof.
  intros Hc. revert cur. induction a as [|x a IH]; intros cur.
  - simpl. rewrite Hc. destruct (is_empty cur); reflexivity.
  - simpl. destruct (isspace x).
    + destruct (is_empty cur); rewrite IH; reflexivity.
    + apply IH.
Qed.

Lemma split_app_rendered (x : string) :
  split (x ++ " Rendered.") = (split x ++ ["Rendered."])%list.
Proof. unfold split. rewrite split_from_app_space by reflexivity. reflexivity. Qed.

Lemma split_app_source (x u : string) :
  split (x ++ " Source: " ++ u) = (split x ++ "Source:" :: split u)%list.
Proof.
  unfold split.
  change (" Source: " ++ u) with (String " " ("Source: " ++ u)).
  rewrite split_from_app_space by reflexivity. reflexivity.
Qed.

Lemma split_from_nonempty (s cur : string) :
  is_empty cur = false -> (1 <= List.length (split_from cur s))%nat.
Proof.
  revert cur. induction s as [|x s IH]; intros cur Hcur; simpl.
  - rewrite Hcur. simpl. lia.
  - destruct (isspace x).
    + rewrite Hcur. simpl. lia.
    + apply IH. destruct cur; reflexivity.
Qed.

(** A url has at least one word. *)
Lemma split_https (u : string) :
  startswith "https://" u = true -> (1 <= List.length (split u))%nat.
Proof.
  intros H.
  destruct u as [|c u]; [discriminate H|].
  cbn [startswith] in H.
  apply andb_true_iff in H as [Hc _]. apply Ascii.eqb_eq in Hc. subst c.
  change (split (String "h" u)) with (split_from "h" u).
  apply split_from_nonempty. reflexivity.
Qed.

End HandlerFacts.

Section ExtractFacts.

Import PyString.

Lemma markdown_stub_words (titled render_js include_links : bool) (u : string) :
  Z.of_nat (List.length (split (markdown_stub titled render_js include_links u)))
  = expected_tokens titled render_js include_links u.
Proof.
  unfold markdown_stub, expected_tokens.
  destruct titled, render_js, include_links; cbv zeta;
    rewrite ?split_app_source, ?split_app_rendered, ?List.length_app;
    cbn [List.length]; rewrite ?Nat2Z.inj_add, ?Nat2Z.inj_succ;
    (match goal with
     | |- context [split ?b] =>
         match b with
         | context [u] => fail 1
         | _ => let n := eval vm_compute in (List.length (split b)) in
                change (List.length (split b)) with n
         end
     end); lia.
Qed.

(** The successful response of [extract_markdown], in closed form. *)
Lemma extract_markdown_success cfg (u : string) options auth_token :
  Vector1._is_authorized cfg auth_token = true ->
  startswith "https://" u = true ->
  contains "site-que-falla" u = false ->
  Vector1.extract_markdown cfg (PyStr u) options auth_token
  = let titled := contains "example.com" u in
    let markdown := markdown_stub titled (option_flag "render_js" options)
                      (option_flag "include_links" options) u in
    let token_count := Z.max 1 (Z.of_nat (List.length (split markdown))) in
    PyDict [("success", PyBool true); ("markdown", PyStr markdown);
            ("metadata",
             PyDict [("source_url", PyStr u);
                     ("title", if titled then PyStr "Example Site" else PyNone);
                     ("token_count", PyInt token_count);
                     ("word_count", PyInt token_count)]);
            ("error", PyNone)].
Proof.
  intros Ha Hu Hm.
  unfold Vector1.extract_markdown, Vector1._is_https_url, Common._is_https_url.
  rewrite Ha, Hu, Hm. simpl negb. cbv iota zeta.
  unfold option_flag, markdown_stub.
  destruct (contains "example.com" u); reflexivity.
Qed.

(** Property X9. For an authorized request with an https url without the
    failure marker, [extract_markdown] succeeds; its token count and word
    count are both the number of words of the markdown it returns: 4 for
    the plain stub, one more with a title (the url contains
    [example.com]), one more with [render_js], and with [include_links]
    one more plus the words of the url. The count is at least 4, so the
    [max(1, ...)] never applies. *)
Theorem X9_extract_token_count
    (cfg : config) (u : string) (options auth_token : pyval) :
  Vector1._is_authorized cfg auth_token = true ->
  startswith "https://" u = true ->
  contains "site-que-falla" u = false ->
  exists markdown n,
    Vector1.extract_markdown cfg (PyStr u) options auth_token
    = PyDict [("success", PyBool true); ("markdown", PyStr markdown);
              ("metadata",
               PyDict [("source_url", PyStr u);
                       ("title", if contains "example.com" u
                                 then PyStr "Example Site" else PyNone);
                       ("token_count", PyInt n);
                       ("word_count", PyInt n)]);
              ("error", PyNone)] /\
    n = Z.of_nat (List.length (split markdown)) /\
    n = expected_tokens (contains "example.com" u) (option_flag "render_js" options)
          (option_flag "include_links" options) u /\
    4 <= n.
Proof.
  intros Ha Hu Hm.
  rewrite (extract_markdown_success cfg u options auth_token Ha Hu Hm). cbv zeta.
  pose proof (markdown_stub_words (contains "example.com" u)
                (option_flag "render_js" options)
                (option_flag "include_links" options) u) as Hw.
  assert (H4 : 4 <= expected_tokens (contains "example.com" u)
                      (option_flag "render_js" options)
                      (option_flag "include_links" options) u).
  { unfold expected_tokens.
    destruct (contains "example.com" u), (option_flag "render_js" options),
      (option_flag "include_links" options); lia. }
  eexists. eexists. split; [reflexivity|].
  rewrite Hw. split; [lia|]. split; [lia|]. lia.
Qed.

Lemma X9_witness :
  Vector1._is_authorized dev_config (PyStr "Bearer token") = true /\
  startswith "https://" "https://example.com" = true /\
  contains "site-que-falla" "https://example.com" = false /\
  field "metadata"
    (Vector1.extract_markdown dev_config (PyStr "https://example.com")
       (PyDict [("include_links", PyBool true)]) (PyStr "Bearer token"))
  = Some (PyDict [("source_url", PyStr "https://example.com");
                  ("title", PyStr "Example Site");
                  ("token_count", PyInt 7); ("word_count", PyInt 7)]).
Proof.
  split; [reflexivity|]. split; [reflexivity|]. split; [reflexivity|].
  destruct (X9_extract_token_count dev_config "https://example.com"
              (PyDict [("include_links", PyBool true)]) (PyStr "Bearer token")
              eq_refl eq_refl eq_refl) as (markdown & n & E & _ & Hn & _).
  rewrite E, Hn. reflexivity.
Defined.

(** [extract_markdown] reads its options only through the truthiness of
    [render_js] and [include_links]: options that are not a dictionary,
    missing keys and falsy values all mean off, and any other key is
    ignored. *)
Lemma extract_options_normal_form
    (cfg : config) (url options auth_token : pyval) :
  Vector1.extract_markdown cfg url options auth_token
  = Vector1.extract_markdown cfg url
      (PyDict [("render_js", PyBool (option_flag "render_js" options));
               ("include_links", PyBool (option_flag "include_links" options))])
      auth_token.
Proof.
  unfold Vector1.extract_markdown.
  destruct (negb (Vector1._is_authorized cfg auth_token)); [reflexivity|].
  destruct (negb (Vector1._is_https_url url)); [reflexivity|].
  destruct url; reflexivity.
Qed.

End ExtractFacts.

Section SkillFacts.

Import PyString.

(** The strict scan accepts only alphabet and padding characters. *)
Lemma scan_alphabet (s : string) (quad_pos pads : nat) (padding_started : bool) :
  Base64.scan quad_pos pads padding_started s = true ->
  all_chars (fun c => Base64.is_alphabet c || Base64.is_pad c)%bool s = true.
Proof.
  revert quad_pos pads padding_started.
  induction s as [|c s IH]; intros quad_pos pads padding_started H; [reflexivity|].
  cbn [Base64.scan all_chars] in H |- *.
  destruct (Base64.is_pad c) eqn:Ep.
  - rewrite orb_true_r. cbn [andb].
    destruct (2 <=? quad_pos)%nat.
    + destruct (4 <=? quad_pos + S pads)%nat.
      * apply is_empty_true in H. rewrite H. reflexivity.
      * eapply IH, H.
    + eapply IH, H.
  - destruct (Base64.is_alphabet c); cbn [negb orb andb] in H |- *; [|discriminate H].
    destruct padding_started; [discriminate H|].
    eapply IH, H.
Qed.

Lemma b64decode_alphabet (s : string) :
  Base64.b64decode_validate s = true ->
  all_chars (fun c => Base64.is_alphabet c || Base64.is_pad c)%bool s = true.
Proof.
  unfold Base64.b64decode_validate.
  destruct (negb (Base64.is_ascii s)); [discriminate|].
  destruct s as [|c s]; [reflexivity|].
  destruct (Base64.is_pad c); [discriminate|].
  apply scan_alphabet.
Qed.

(** Property X10. [run_skill] answers success = true only for an
    authorized credential, the skill [pdf_financials] and a payload that is
    a non-empty string without the marker [BAD], made of base64 alphabet
    and padding characters only (no whitespace, no line breaks); the result
    is then always one table of ten rows. *)
Theorem X10_run_skill_success
    (cfg : config) (skill_id payload_b64 auth_token : pyval) :
  field "success" (Vector2.run_skill cfg skill_id payload_b64 auth_token)
  = Some (PyBool true) ->
  Vector2._is_authorized cfg auth_token = true /\
  skill_id = PyStr "pdf_financials" /\
  (exists p,
      payload_b64 = PyStr p /\ p <> "" /\ contains "BAD" p = false /\
      all_chars (fun c => Base64.is_alphabet c || Base64.is_pad c)%bool p = true /\
      all_chars (fun c => negb (isspace c)) p = true) /\
  Vector2.run_skill cfg skill_id payload_b64 auth_token
  = PyDict [("success", PyBool true);
            ("result", PyDict [("tables", PyInt 1); ("rows", PyInt 10)]);
            ("error", PyNone)].
Proof.
  unfold Vector2.run_skill.
  destruct (Vector2._is_authorized cfg auth_token); simpl negb; cbv iota;
    [|discriminate].
  destruct skill_id as [| | | |k| |]; try discriminate.
  destruct (String.eqb_spec k "pdf_financials") as [->|Hk]; simpl negb; cbv iota;
    [|discriminate].
  destruct payload_b64 as [| | | |p| |]; try discriminate.
  destruct (is_empty p) eqn:Ep; [discriminate|].
  destruct (contains "BAD" p) eqn:Eb; [discriminate|].
  destruct (Base64.b64decode_validate p) eqn:Ed; simpl negb; cbv iota;
    [|discriminate].
  intros _.
  split; [reflexivity|]. split; [reflexivity|]. split; [|reflexivity].
  exists p. split; [reflexivity|]. split; [apply is_empty_false, Ep|].
  split; [exact Eb|].
  pose proof (b64decode_alphabet p Ed) as Ha.
  split; [exact Ha|].
  clear - Ha. induction p as [|c p IH]; [reflexivity|].
  simpl in Ha |- *. apply andb_true_iff in Ha as [Hc Hp].
  rewrite (IH Hp), andb_true_r.
  destruct c as [[] [] [] [] [] [] [] []]; try reflexivity; discriminate Hc.
Qed.

Lemma X10_witness :
  field "success"
    (Vector2.run_skill dev_config (PyStr "pdf_financials") (PyStr "cGRm") (PyStr "token"))
  = Some (PyBool true) /\
  Vector2.run_skill dev_config (PyStr "pdf_financials") (PyStr "cGRm") (PyStr "token")
  = PyDict [("success", PyBool true);
            ("result", PyDict [("tables", PyInt 1); ("rows", PyInt 10)]);
            ("error", PyNone)].
Proof.
  split; [reflexivity|].
  exact (proj2 (proj2 (proj2 (X10_run_skill_success dev_config
                                (PyStr "pdf_financials") (PyStr "cGRm")
                                (PyStr "token") eq_refl)))).
Defined.

Lemma app_inv_tail (a b t : string) : a ++ t = b ++ t -> a = b.
Proof.
  revert b. induction a as [|x a IH]; intros b H.
  - destruct b as [|y b]; [reflexivity|].
    apply (f_equal String.length) in H. simpl in H.
    rewrite length_app in H. lia.
  - destruct b as [|y b].
    + apply (f_equal String.length) in H. simpl in H.
      rewrite length_app in H. lia.
    + simpl in H. injection H as -> H. f_equal. apply IH, H.
Qed.

(** Property X11. A successful [generate_llm_txt] can be undone: both
    texts start with the line [site: <domain>], and two requests that
    succeed with the same [llm_txt] were made for the same domain. *)
Theorem X11_llm_txt_determines_domain
    (cfg cfg' : config) (domain domain' auth_token auth_token' : pyval) :
  field "success" (Vector3.generate_llm_txt cfg domain auth_token) = Some (PyBool true) ->
  field "success" (Vector3.generate_llm_txt cfg' domain' auth_token') = Some (PyBool true) ->
  field "llm_txt" (Vector3.generate_llm_txt cfg domain auth_token)
  = field "llm_txt" (Vector3.generate_llm_txt cfg' domain' auth_token') ->
  domain = domain' /\
  exists d,
    domain = PyStr d /\
    field "llm_txt" (Vector3.generate_llm_txt cfg domain auth_token)
    = Some (PyStr ("site: " ++ d ++ Vector3.nl ++ "summary: agentic-ready")) /\
    field "llm_full_txt" (Vector3.generate_llm_txt cfg domain auth_token)
    = Some (PyStr ("site: " ++ d ++ Vector3.nl ++ "paths:" ++ Vector3.nl
                   ++ "- /" ++ Vector3.nl ++ "- /docs")).
Proof.
  unfold Vector3.generate_llm_txt.
  destruct (negb (Vector3._is_authorized cfg auth_token)); [discriminate|].
  destruct (negb (Vector3._is_authorized cfg' auth_token')); [intros _; discriminate|].
  destruct domain as [| | | |d| |]; try discriminate.
  destruct domain' as [| | | |d'| |]; try (intros _; discriminate).
  destruct (contains "http" d || contains "/" d || contains " " d)%bool;
    [discriminate|].
  destruct (contains "site-que-falla" d); [discriminate|].
  destruct (contains "http" d' || contains "/" d' || contains " " d')%bool;
    [intros _; discriminate|].
  destruct (contains "site-que-falla" d'); [intros _; discriminate|].
  cbv zeta. intros _ _ H.
  cbn [field dict_lookup String.eqb Ascii.eqb Bool.eqb] in H |- *.
  injection H as H.
  assert (E : d = d').
  { apply (app_inv_tail d d' (Vector3.nl ++ "summary: agentic-ready")).
    change ("site: " ++ d ++ Vector3.nl ++ "summary: agentic-ready")
      with ("site: " ++ (d ++ Vector3.nl ++ "summary: agentic-ready")) in H.
    simpl in H. exact H. }
  subst d'. split; [reflexivity|].
  exists d. repeat split.
Qed.

Lemma X11_witness :
  field "success" (Vector3.generate_llm_txt dev_config (PyStr "docs.test") (PyStr "a"))
  = Some (PyBool true) /\
  field "llm_txt" (Vector3.generate_llm_txt dev_config (PyStr "docs.test") (PyStr "a"))
  = field "llm_txt" (Vector3.generate_llm_txt (live_config (Raised ValueError))
                       (PyStr "docs.test") (PyStr "Bearer s3cret")) /\
  PyStr "docs.test" = PyStr "docs.test".
Proof.
  split; [reflexivity|]. split; [reflexivity|].
  exact (proj1 (X11_llm_txt_determines_domain dev_config (live_config (Raised ValueError))
                  (PyStr "docs.test") (PyStr "docs.test") (PyStr "a")
                  (PyStr "Bearer s3cret") eq_refl eq_refl eq_refl)).
Defined.

End SkillFacts.

(** ** The endpoints *)
Section EndpointFacts.

Import PyString.

(** Property X12. A request without an [Authorization] header is answered
    [UNAUTHORIZED] by every endpoint that takes credentials, in the three
    services, whatever its payload and whatever the secret, also when no
    secret is configured. *)
Theorem X12_no_credentials_unauthorized
    (cfg : config) (payload : list (string * pyval)) :
  Vector1.api_extract cfg payload None
  = PyDict [("success", PyBool false); ("markdown", PyNone);
            ("metadata", PyNone); ("error", PyStr "UNAUTHORIZED")] /\
  Vector2.api_run_skill cfg payload None
  = PyDict [("success", PyBool false); ("result", PyNone);
            ("error", PyStr "UNAUTHORIZED")] /\
  Vector3.api_llm_txt cfg payload None
  = PyDict [("success", PyBool false); ("llm_txt", PyNone);
            ("llm_full_txt", PyNone); ("error", PyStr "UNAUTHORIZED")] /\
  (forall v, api_usage v cfg payload None
             = Returned (PyDict [("success", PyBool false); ("charge", PyNone);
                                 ("error", PyStr "UNAUTHORIZED")])).
Proof.
  assert (H : forall v, is_authorized v cfg (PyStr "") = false).
  { intros v. apply blank_refused. intros s [= <-]. reflexivity. }
  split; [reflexivity|]. split; [reflexivity|]. split; [reflexivity|].
  intros v.
  assert (E : api_usage v cfg payload None
                = create_usage_charge v cfg (dict_get "agent_id" payload)
                    (dict_get "service_id" payload) (dict_get "units" payload)
                    (PyStr "")) by (destruct v; reflexivity).
  rewrite E, create_usage_charge_eq.
  apply biller_unauthorized, H.
Qed.

(** Property X13. A field that is absent from the payload (or null) is
    read as [None] and reported by the validation it reaches, for an
    authorized caller: no url gives [INVALID_URL], no skill
    [UNKNOWN_SKILL], no payload for the known skill [INVALID_PAYLOAD], no
    domain [INVALID_DOMAIN], no service [UNKNOWN_SERVICE], no units for an
    allow-listed service [INVALID_UNITS]; the listing endpoint, which takes
    no credentials, answers [INVALID_SERVICE] without a service and
    [INVALID_URL] when a url is missing. *)
Theorem X13_missing_fields
    (cfg : config) (payload : list (string * pyval))
    (creds : option HTTPAuthorizationCredentials) :
  (Vector1._is_authorized cfg (PyStr (Common._auth_header_from_credentials creds)) = true ->
   dict_get "url" payload = PyNone ->
   field "error" (Vector1.api_extract cfg payload creds) = Some (PyStr "INVALID_URL")) /\
  (Vector2._is_authorized cfg (PyStr (Common._auth_header_from_credentials creds)) = true ->
   (dict_get "skill_id" payload = PyNone ->
    field "error" (Vector2.api_run_skill cfg payload creds) = Some (PyStr "UNKNOWN_SKILL")) /\
   (dict_get "skill_id" payload = PyStr "pdf_financials" ->
    dict_get "payload_b64" payload = PyNone ->
    field "error" (Vector2.api_run_skill cfg payload creds)
    = Some (PyStr "INVALID_PAYLOAD"))) /\
  (Vector3._is_authorized cfg (PyStr (Common._auth_header_from_credentials creds)) = true ->
   dict_get "domain" payload = PyNone ->
   field "error" (Vector3.api_llm_txt cfg payload creds) = Some (PyStr "INVALID_DOMAIN")) /\
  (forall v,
      is_authorized v cfg (PyStr (Common._auth_header_from_credentials creds)) = true ->
      (dict_get "service_id" payload = PyNone ->
       api_usage v cfg payload creds = Returned (charge_error "UNKNOWN_SERVICE")) /\
      (Common.allowed_service (allow_list v) (dict_get "service_id" payload) = true ->
       dict_get "units" payload = PyNone ->
       api_usage v cfg payload creds = Returned (charge_error "INVALID_UNITS"))) /\
  (forall v,
      (dict_get "service_id" payload = PyNone ->
       field "error" (api_listing v payload) = Some (PyStr "INVALID_SERVICE")) /\
      (valid_service_id (dict_get "service_id" payload) = true ->
       dict_get "openapi_url" payload = PyNone \/ dict_get "llm_txt_url" payload = PyNone ->
       field "error" (api_listing v payload) = Some (PyStr "INVALID_URL"))).
Proof.
  split; [|split; [|split; [|split]]].
  - intros Ha Hu.
    unfold Vector1.api_extract, Vector1.extract_markdown. cbv zeta.
    change (Vector1._auth_header_from_credentials creds)
      with (Common._auth_header_from_credentials creds).
    rewrite Ha, Hu. reflexivity.
  - intros Ha. split.
    + intros Hk.
      unfold Vector2.api_run_skill, Vector2.run_skill. cbv zeta.
      change (Vector2._auth_header_from_credentials creds)
        with (Common._auth_header_from_credentials creds).
      rewrite Ha, Hk. reflexivity.
    + intros Hk Hp.
      unfold Vector2.api_run_skill, Vector2.run_skill. cbv zeta.
      change (Vector2._auth_header_from_credentials creds)
        with (Common._auth_header_from_credentials creds).
      rewrite Ha, Hk, Hp. reflexivity.
  - intros Ha Hd.
    unfold Vector3.api_llm_txt, Vector3.generate_llm_txt. cbv zeta.
    change (Vector3._auth_header_from_credentials creds)
      with (Common._auth_header_from_credentials creds).
    rewrite Ha, Hd. reflexivity.
  - intros v Ha.
    assert (E : api_usage v cfg payload creds
                = create_usage_charge v cfg (dict_get "agent_id" payload)
                    (dict_get "service_id" payload) (dict_get "units" payload)
                    (PyStr (Common._auth_header_from_credentials creds)))
      by (destruct v; reflexivity).
    rewrite E, create_usage_charge_eq. split.
    + intros Hs. apply biller_unknown_service; [exact Ha|].
      rewrite Hs. reflexivity.
    + intros Hs Hu. apply biller_invalid_units; [exact Ha|exact Hs|].
      rewrite Hu. exact (fun H => H).
  - intros v.
    assert (E : api_listing v payload
                = Common.publish_listing (dict_get "service_id" payload)
                    (dict_get "openapi_url" payload) (dict_get "llm_txt_url" payload))
      by (destruct v; reflexivity).
    rewrite E. unfold Common.publish_listing. split.
    + intros Hs. rewrite Hs. reflexivity.
    + unfold valid_service_id. intros Hs Hu.
      destruct (dict_get "service_id" payload) as [| | | |s| |]; try discriminate Hs.
      apply negb_true_iff in Hs. rewrite Hs.
      destruct Hu as [Hu|Hu]; rewrite Hu.
      * reflexivity.
      * rewrite orb_true_r. reflexivity.
Qed.

Lemma X13_witness :
  is_authorized V2 dev_config
    (PyStr (Common._auth_header_from_credentials
              (Some {| scheme := "Bearer"; credentials := "token" |}))) = true /\
  Common.allowed_service (allow_list V2)
    (dict_get "service_id" [("service_id", PyStr "run_skill")]) = true /\
  dict_get "units" [("service_id", PyStr "run_skill")] = PyNone /\
  api_usage V2 dev_config [("service_id", PyStr "run_skill")]
    (Some {| scheme := "Bearer"; credentials := "token" |})
  = Returned (charge_error "INVALID_UNITS").
Proof.
  split; [reflexivity|]. split; [reflexivity|]. split; [reflexivity|].
  destruct (X13_missing_fields dev_config [("service_id", PyStr "run_skill")]
              (Some {| scheme := "Bearer"; credentials := "token" |}))
    as (_ & _ & _ & H & _).
  exact (proj2 (H V2 eq_refl) eq_refl eq_refl).
Defined.

(** The header of a request with credentials. *)
Lemma header_of_credentials (sch tok : string) :
  Common._auth_header_from_credentials (Some {| scheme := sch; credentials := tok |})
  = "" ++ (sch ++ " ") ++ "" ++ tok.
Proof. simpl. rewrite append_assoc. reflexivity. Qed.

(** Property X14. At the endpoints of vectors 2 and 3, for a scheme that
    is [bearer] in any letter case and credentials that are not blank, the
    request is authorized exactly when the normalized credentials satisfy
    the secret rule: the scheme the framework split off is put back and
    stripped again. *)
Theorem X14_endpoint_authorization_lenient
    (cfg : config) (sch tok : string) :
  lower sch = "bearer" -> blank tok = false ->
  let header := PyStr (Common._auth_header_from_credentials
                         (Some {| scheme := sch; credentials := tok |})) in
  Vector2._normalize_auth_token header = Vector2._normalize_auth_token (PyStr tok) /\
  (Vector2._is_authorized cfg header = true <->
   secret_rule (API_AUTH_TOKEN cfg) (Vector2._normalize_auth_token (PyStr tok))) /\
  (Vector3._is_authorized cfg header = true <->
   secret_rule (API_AUTH_TOKEN cfg) (Vector3._normalize_auth_token (PyStr tok))).
Proof.
  intros Hs Ht header.
  assert (E : TokenAuth._normalize_auth_token header
              = TokenAuth._normalize_auth_token (PyStr tok)).
  { unfold header. rewrite header_of_credentials.
    apply normalize_prefixed; try reflexivity.
    - rewrite lower_app, Hs. reflexivity.
    - intros B. apply strip_empty_blank in B. congruence. }
  split; [exact E|].
  split.
  - change (Vector2._normalize_auth_token (PyStr tok))
      with (TokenAuth._normalize_auth_token (PyStr tok)).
    rewrite <- E. apply token_auth_rule.
  - change (Vector3._normalize_auth_token (PyStr tok))
      with (TokenAuth._normalize_auth_token (PyStr tok)).
    rewrite <- E. apply token_auth_rule.
Qed.

Lemma X14_witness :
  lower "BEARER" = "bearer" /\ blank "s3cret" = false /\
  Vector2._is_authorized (live_config (Raised ValueError))
    (PyStr (Common._auth_header_from_credentials
              (Some {| scheme := "BEARER"; credentials := "s3cret" |}))) = true.
Proof.
  split; [reflexivity|]. split; [reflexivity|].
  destruct (X14_endpoint_authorization_lenient (live_config (Raised ValueError))
              "BEARER" "s3cret" eq_refl eq_refl) as (_ & H & _).
  apply H. right. split; [discriminate|reflexivity].
Defined.

Lemma bearer_scheme_literal (sch rest : string) :
  String.length sch = 6%nat ->
  (startswith "Bearer " (sch ++ " " ++ rest) = true <-> sch = "Bearer").
Proof.
  intros L.
  destruct sch as [|c1 [|c2 [|c3 [|c4 [|c5 [|c6 [|c7 sch]]]]]]]; try discriminate L.
  cbn [append startswith].
  rewrite !andb_true_iff, !Ascii.eqb_eq. split.
  - intros (<- & <- & <- & <- & <- & <- & _). reflexivity.
  - intros [= <- <- <- <- <- <-]. repeat split.
Qed.

(** Property X15. At the endpoints of vector 1, for a scheme that is
    [bearer] in some letter case, the request is authorized exactly when
    the scheme is spelled [Bearer] and either no secret is configured or the
    credentials are the secret: a client that sends [bearer] or [BEARER],
    which vectors 2 and 3 accept, is refused. *)
Theorem X15_endpoint_authorization_literal
    (cfg : config) (sch tok : string) :
  lower sch = "bearer" ->
  (Vector1._is_authorized cfg
     (PyStr (Common._auth_header_from_credentials
               (Some {| scheme := sch; credentials := tok |}))) = true <->
   sch = "Bearer" /\ (API_AUTH_TOKEN cfg = "" \/ tok = API_AUTH_TOKEN cfg)).
Proof.
  intros Hs.
  assert (L : String.length sch = 6%nat) by (rewrite <- length_lower, Hs; reflexivity).
  rewrite literal_auth_rule.
  change (Common._auth_header_from_credentials
            (Some {| scheme := sch; credentials := tok |}))
    with (sch ++ " " ++ tok).
  rewrite (bearer_scheme_literal sch tok L).
  split.
  - intros [-> [H|H]]; (split; [reflexivity|]); [left; exact H|].
    right. simpl in H. injection H as H. exact H.
  - intros [-> [H|H]]; (split; [reflexivity|]); [left; exact H|].
    right. rewrite H. reflexivity.
Qed.

Lemma X15_witness :
  lower "bearer" = "bearer" /\
  Vector1._is_authorized (live_config (Raised ValueError))
    (PyStr (Common._auth_header_from_credentials
              (Some {| scheme := "bearer"; credentials := "s3cret" |}))) = false.
Proof.
  split; [reflexivity|].
  destruct (Vector1._is_authorized (live_config (Raised ValueError))
              (PyStr (Common._auth_header_from_credentials
                        (Some {| scheme := "bearer"; credentials := "s3cret" |}))))
    eqn:E; [|reflexivity].
  apply (X15_endpoint_authorization_literal (live_config (Raised ValueError))
           "bearer" "s3cret" eq_refl) in E.
  destruct E as [E _]. discriminate E.
Defined.

End EndpointFacts.
